(** * Acme Dataroom MVP: a shallow embedding of the client and of the
      storage engine it talks to.

    The React client (App.tsx, SearchBar.tsx, RenameDialog.tsx,
    CreateFolderDialog.tsx, types.ts) is embedded handler by handler: a handler
    reads the state of the render it was created in and yields the trace of the
    effects it performs (state setters, callbacks, fetch requests).  What a
    fetch resolves to is an input of the handler.

    The Flask backend is not part of the sources; module [TreeEngine] models
    the operations of the storage engine from the specification. *)

From Stdlib Require Import ZArith NArith QArith Qround List String Ascii Bool Lia.
From stdpp Require Import base option list gmap fin_sets fin_maps sorting strings.

Close Scope Q_scope.
Local Open Scope Z_scope.

(* ===================================================================== *)
(** ** JavaScript values used by the client *)
(* ===================================================================== *)

Module Js.

(** A JavaScript string is a sequence of UTF-16 code units. *)
Definition code_unit := N.
Definition jsstring := list code_unit.

Definition of_string (s : string) : jsstring :=
  map N_of_ascii (list_ascii_of_string s).

(** ECMAScript WhiteSpace: TAB, VT, FF, ZWNBSP and the space separators. *)
Definition is_white_space (c : code_unit) : bool :=
  ((c =? 0x0009) || (c =? 0x000B) || (c =? 0x000C) || (c =? 0x0020)
   || (c =? 0x00A0) || (c =? 0x1680)
   || ((0x2000 <=? c) && (c <=? 0x200A))
   || (c =? 0x202F) || (c =? 0x205F) || (c =? 0x3000) || (c =? 0xFEFF))%N.

(** ECMAScript LineTerminator: LF, CR, LS, PS. *)
Definition is_line_terminator (c : code_unit) : bool :=
  ((c =? 0x000A) || (c =? 0x000D) || (c =? 0x2028) || (c =? 0x2029))%N.

(** The code units [String.prototype.trim] strips. *)
Definition is_trimmed_char (c : code_unit) : bool :=
  is_white_space c || is_line_terminator c.

Fixpoint trimStart (s : jsstring) : jsstring :=
  match s with
  | [] => []
  | c :: r => if is_trimmed_char c then trimStart r else s
  end.

Definition trimEnd (s : jsstring) : jsstring := rev (trimStart (rev s)).

Definition trim (s : jsstring) : jsstring := trimEnd (trimStart s).

(** A string made of whitespace only (the empty string included). *)
Definition whitespace_only (s : jsstring) : bool := forallb is_trimmed_char s.

(** Surrogate code units, and [String.prototype.isWellFormed]: every high
    surrogate is followed by a low one and no low surrogate stands alone.
    [encodeURIComponent] throws a [URIError] on a string that is not well
    formed. *)
Definition is_high_surrogate (c : code_unit) : bool :=
  ((0xD800 <=? c) && (c <=? 0xDBFF))%N.

Definition is_low_surrogate (c : code_unit) : bool :=
  ((0xDC00 <=? c) && (c <=? 0xDFFF))%N.

Fixpoint well_formed (s : jsstring) : bool :=
  match s with
  | [] => true
  | c :: rest =>
      if is_high_surrogate c then
        match rest with
        | l :: rest' => is_low_surrogate l && well_formed rest'
        | [] => false
        end
      else if is_low_surrogate c then false
      else well_formed rest
  end.

(** ToBoolean on a string: only the empty string is falsy. *)
Definition truthy (s : jsstring) : bool :=
  match s with [] => false | _ :: _ => true end.

(** [a === b] / [a !== b] on strings. *)
Definition strict_eq (a b : jsstring) : bool := bool_decide (a = b).

(** The values a relational comparison of the client meets: a number, or
    [undefined] when a property is missing from the object. *)
Inductive value := VUndefined | VNum (n : Z).

(** [a > b]: [undefined] converts to NaN and every comparison with NaN is
    false. *)
Definition gt (a b : value) : bool :=
  match a, b with
  | VNum x, VNum y => y <? x
  | _, _ => false
  end.

Definition lt (a b : value) : bool :=
  match a, b with
  | VNum x, VNum y => x <? y
  | _, _ => false
  end.

(** [arr[i]] for an integer index: [undefined] out of range, negative
    indices included. *)
Definition index {A} (l : list A) (i : Z) : option A :=
  if i <? 0 then None else l !! Z.to_nat i.

(** Completion of an expression: a value, or a thrown error. *)
Inductive error := ReferenceError (ident : string).
Inductive completion (A : Type) := Normal (a : A) | Throw (e : error).
Arguments Normal {A} a.
Arguments Throw {A} e.

End Js.

(* ===================================================================== *)
(** ** types.ts *)
(* ===================================================================== *)

Module Types.
Import Js.

Record FolderSummary := {
  fs_id : Z;
  fs_name : jsstring;
  fs_created_at : jsstring;
}.

Record FileItem := {
  fi_id : Z;
  fi_name : jsstring;
  fi_mime_type : jsstring;
  fi_size_bytes : Z;
  fi_created_at : jsstring;
}.

Record FolderContents := {
  id : Z;
  name : jsstring;
  breadcrumbs : list FolderSummary;
  folders : list FolderSummary;
  files : list FileItem;
  total_folders : Z;
  total_files : Z;
  folder_page : Z;
  folder_page_size : Z;
  file_page : Z;
  file_page_size : Z;
}.

(** The property names of a [FolderContents] object, in declaration order. *)
Definition FolderContents_keys : list string :=
  ["id"; "name"; "breadcrumbs"; "folders"; "files"; "total_folders";
   "total_files"; "folder_page"; "folder_page_size"; "file_page";
   "file_page_size"]%string.

(** Property access on a [FolderContents] object by name, for the numeric
    properties the pagination footer reads; a name the interface does not
    declare yields [undefined]. *)
Definition get_number (c : FolderContents) (key : string) : value :=
  if String.eqb key "id" then VNum (id c)
  else if String.eqb key "total_folders" then VNum (total_folders c)
  else if String.eqb key "total_files" then VNum (total_files c)
  else if String.eqb key "folder_page" then VNum (folder_page c)
  else if String.eqb key "folder_page_size" then VNum (folder_page_size c)
  else if String.eqb key "file_page" then VNum (file_page c)
  else if String.eqb key "file_page_size" then VNum (file_page_size c)
  else VUndefined.

End Types.

(* ===================================================================== *)
(** ** fetch requests *)
(* ===================================================================== *)

Module Http.
Import Js Types.

Inductive Method := GET | POST | PATCH | DELETE.

Inductive Credentials := Omit | SameOrigin | Include.

(** The query of a folder-contents request (a URLSearchParams object). *)
Record ContentsParams := {
  p_folder_page : Z;
  p_folder_page_size : Z;
  p_file_page : Z;
  p_file_page_size : Z;
}.

(** The URLs the client builds under API_BASE_URL.  A number interpolated
    into a template is kept as the number; [undefined] interpolates as the
    text "undefined" and is kept as [None]. *)
Inductive Url :=
| UrlFolderContents (folderId : Z) (params : ContentsParams)
| UrlFoldersRoot (dataroom_id : option Z)
| UrlDatarooms
| UrlFolders
| UrlFolder (folderId : Z)
| UrlFiles (folder_id : Z)
| UrlFile (fileId : Z)
| UrlFileDownload (fileId : Z)
| UrlSearch (q : jsstring).

Inductive Body :=
| BodyCreateFolder (name : jsstring) (parent_id : Z)
| BodyRename (name : jsstring)
| BodyUpload.

(** [fetch(url, init)]: a field the init object does not give is [None]. *)
Record Request := {
  url : Url;
  method : option Method;
  credentials : option Credentials;
  content_type_json : bool;
  body : option Body;
}.

(** The Fetch standard's defaults. *)
Definition effective_method (r : Request) : Method := default GET (method r).
Definition effective_credentials (r : Request) : Credentials :=
  default SameOrigin (credentials r).

(** A request is sent with credentials included. *)
Definition sends_credentials (r : Request) : bool :=
  match effective_credentials r with Include => true | _ => false end.

(** What an awaited fetch (followed by [response.json()] where the handler
    reads the body) comes to: a rejection carrying a message when the thrown
    value is an [Error], a response that is not ok, or an ok response with its
    parsed body. *)
Inductive Outcome (A : Type) :=
| Threw (message : option string)
| NotOk (status : Z)
| Ok (data : A).
Arguments Threw {A} message.
Arguments NotOk {A} status.
Arguments Ok {A} data.

End Http.

(* ===================================================================== *)
(** ** components/CreateFolderDialog.tsx *)
(* ===================================================================== *)

Module CreateFolderDialog.
Import Js.

(** What the dialog does to the outside and to its own [name] state. *)
Inductive Effect :=
| PreventDefault
| OnConfirm (name : jsstring)
| SetName (name : jsstring)
| OnOpenChange (open : bool).

(** [handleSubmit], run with [name] as the content of the input. *)
Definition handleSubmit (name : jsstring) : list Effect :=
  PreventDefault ::
  (if truthy (trim name)
   then [OnConfirm (trim name); SetName []; OnOpenChange false]
   else []).

(** The [disabled] attribute of the submit button. *)
Definition confirm_disabled (name : jsstring) : bool := negb (truthy (trim name)).

(** The names handed to [onConfirm] by one run of the handler. *)
Definition confirmed (es : list Effect) : list jsstring :=
  omap (λ e, match e with OnConfirm n => Some n | _ => None end) es.

End CreateFolderDialog.

(* ===================================================================== *)
(** ** components/RenameDialog.tsx *)
(* ===================================================================== *)

Module RenameDialog.
Import Js.

Inductive Effect :=
| PreventDefault
| OnConfirm (name : jsstring)
| OnOpenChange (open : bool).

(** [handleSubmit], with [name] the content of the input and [currentName]
    the prop. *)
Definition handleSubmit (name currentName : jsstring) : list Effect :=
  PreventDefault ::
  (if truthy (trim name) && negb (strict_eq name currentName)
   then [OnConfirm (trim name); OnOpenChange false]
   else []).

(** The [disabled] attribute of the submit button. *)
Definition submit_disabled (name currentName : jsstring) : bool :=
  negb (truthy (trim name)) || strict_eq name currentName.

Definition confirmed (es : list Effect) : list jsstring :=
  omap (λ e, match e with OnConfirm n => Some n | _ => None end) es.

End RenameDialog.

(* ===================================================================== *)
(** ** components/SearchBar.tsx *)
(* ===================================================================== *)

Module SearchBar.
Import Js Types Http.

Record SearchResults := {
  sr_folders : list FolderSummary;
  sr_files : list FileItem;
}.

Record State := {
  query : jsstring;
  results : option SearchResults;
  isSearching : bool;
}.

Inductive Effect :=
| SetQuery (q : jsstring)
| SetResults (r : option SearchResults)
| SetIsSearching (b : bool)
| Fetch (r : Request)
| ConsoleError.

Definition search_request (searchQuery : jsstring) : Request :=
  {| url := UrlSearch searchQuery;
     method := None;
     credentials := Some Include;
     content_type_json := false;
     body := None |}.

(** [handleSearch]; [response] is what the fetch resolves to when the
    handler gets as far as issuing it.  Inside the [try] the URL is built
    first: [encodeURIComponent(searchQuery)] throws on a query that is not
    well formed, and then the fetch is never called. *)
Definition handleSearch (response : Outcome SearchResults) (searchQuery : jsstring)
  : list Effect :=
  SetQuery searchQuery ::
  (if negb (truthy (trim searchQuery))
   then [SetResults None]
   else
     SetIsSearching true ::
     (if well_formed searchQuery
      then
        Fetch (search_request searchQuery) ::
        (match response with
         | Ok data => [SetResults (Some data)]
         | NotOk _ => []
         | Threw _ => [ConsoleError]
         end)
      else [ConsoleError]) ++
     [SetIsSearching false]).

Definition apply_effect (s : State) (e : Effect) : State :=
  match e with
  | SetQuery q => {| query := q; results := results s; isSearching := isSearching s |}
  | SetResults r => {| query := query s; results := r; isSearching := isSearching s |}
  | SetIsSearching b => {| query := query s; results := results s; isSearching := b |}
  | Fetch _ | ConsoleError => s
  end.

(** The state of the next render. *)
Definition run (s : State) (es : list Effect) : State := foldl apply_effect s es.

(** The requests a trace sends. *)
Definition requests (es : list Effect) : list Request :=
  omap (λ e, match e with Fetch r => Some r | _ => None end) es.

(** The dropdown is rendered only for a truthy [results]. *)
Definition dropdown_shown (s : State) : bool :=
  match results s with Some _ => true | None => false end.

End SearchBar.

(* ===================================================================== *)
(** ** App.tsx *)
(* ===================================================================== *)

Module App.
Import Js Types Http.

(** The text of an error shown to the user. *)
Inductive Message :=
| MsgUnableToLoadFolder (status : Z)   (* `Unable to load folder (${status})` *)
| MsgText (s : string).

Record AsyncState := {
  loading : bool;
  error : option Message;
}.

Record FolderDialog := { fd_open : bool; fd_folder : option FolderSummary }.
Record FileDialog := { fl_open : bool; fl_file : option FileItem }.

Record DialogState := {
  createFolder : bool;
  renameFolder : FolderDialog;
  renameFile : FileDialog;
  deleteFolder : FolderDialog;
  deleteFile : FileDialog;
}.

(** The state of the component as one render sees it. *)
Record State := {
  datarooms : list FolderSummary;
  selectedDataroom : option FolderSummary;
  currentFolder : option FolderContents;
  state : AsyncState;
  folderPage : Z;
  filePage : Z;
  dialogs : DialogState;
}.

Inductive Effect :=
| SetState (s : AsyncState)
| SetCurrentFolder (c : option FolderContents)
| SetFolderPage (n : Z)
| SetFilePage (n : Z)
| SetDatarooms (l : list FolderSummary)
| SetSelectedDataroom (d : option FolderSummary)
| Fetch (r : Request)
| ConsoleError
| Alert (m : Message)
| WindowOpen (u : Url)
| ClearFileInput.

(** What the backend answers, request by request. *)
Record Server := {
  contents : Request → Outcome FolderContents;
  root : Request → Outcome FolderSummary;
  rooms : Request → Outcome (list FolderSummary);
  mutate : Request → Outcome unit;
  upload_detail : Request → option string;
}.

(** [error instanceof Error ? error.message : "Unknown error"] *)
Definition message_of (thrown : option string) : Message :=
  match thrown with
  | Some m => MsgText m
  | None => MsgText "Unknown error"
  end.

(** *** formatBytes

    A size is a JavaScript number; the finite ones are rationals.  The two
    floating-point computations of the function are taken as given:
    [floor_log_ratio size] is [Math.floor(Math.log(size) / Math.log(1024))]
    and [render_value size index] is
    [value.toFixed(value >= 10 || index === 0 ? 0 : 1)] for
    [value = size / Math.pow(1024, index)]. *)
Section FormatBytes.
Variable floor_log_ratio : Q → Z.
Variable render_value : Q → Z → string.

Definition units : list string := ["B"; "KB"; "MB"; "GB"; "TB"]%string.

Definition unit_index (size : Q) : Z :=
  Z.min (floor_log_ratio size) (Z.of_nat (length units) - 1).

(** A template literal prints a missing array element as "undefined". *)
Definition unit_text (index : Z) : string :=
  match Js.index units index with
  | Some u => u
  | None => "undefined"%string
  end.

Definition formatBytes (size : Q) : string :=
  if Qeq_bool size 0 then "0 B"%string
  else
    let index := unit_index size in
    (render_value size index ++ " " ++ unit_text index)%string.

(** [formatBytes(file.size_bytes)], as the file cards call it. *)
Definition file_size_text (file : FileItem) : string :=
  formatBytes (inject_Z (fi_size_bytes file)).

End FormatBytes.

(** The exact value of [floor(log2 size)] for a positive rational: for
    [size >= 1] the binary logarithm of its integer part, below 1 the
    negated rounded-up logarithm of the inverse. *)
Definition floor_log2 (size : Q) : Z :=
  if Qle_bool 1 size then Z.log2 (Qfloor size)
  else - Z.log2_up (Qceiling (/ size)).

(** The exact value of [floor(log(size) / log(1024))] for a positive
    rational, which the floating-point quotient approximates. *)
Definition floor_log1024 (size : Q) : Z := floor_log2 size / 10.

(** *** loadFolder *)

(** The second argument of [loadFolder] as its callers pass it: nothing, an
    object with optional [folderPage] and [filePage], or (the pagination
    footer) a number. *)
Inductive LoadOptions :=
| OptUndefined
| OptObject (folderPage filePage : option Z)
| OptNumber (n : Z).

(** [options?.folderPage] and [options?.filePage]; a number has neither
    property. *)
Definition opt_folderPage (o : LoadOptions) : option Z :=
  match o with OptObject fp _ => fp | _ => None end.
Definition opt_filePage (o : LoadOptions) : option Z :=
  match o with OptObject _ fp => fp | _ => None end.

Definition loadFolder_params (st : State) (options : LoadOptions) : ContentsParams :=
  let nextFolderPage := default (folderPage st) (opt_folderPage options) in
  let nextFilePage := default (filePage st) (opt_filePage options) in
  {| p_folder_page := nextFolderPage;
     p_folder_page_size := 50;
     p_file_page := nextFilePage;
     p_file_page_size := 50 |}.

Definition loadFolder_request (st : State) (folderId : Z) (options : LoadOptions)
  : Request :=
  {| url := UrlFolderContents folderId (loadFolder_params st options);
     method := None;
     credentials := Some Include;
     content_type_json := false;
     body := None |}.

Definition loadFolder (srv : Server) (st : State) (folderId : Z)
    (options : LoadOptions) : list Effect :=
  let req := loadFolder_request st folderId options in
  SetState {| loading := true; error := None |} ::
  Fetch req ::
  match contents srv req with
  | Threw m =>
      [ConsoleError; SetState {| loading := false; error := Some (message_of m) |}]
  | NotOk status =>
      [ConsoleError;
       SetState {| loading := false; error := Some (MsgUnableToLoadFolder status) |}]
  | Ok data =>
      [SetCurrentFolder (Some data);
       SetFolderPage (folder_page data);
       SetFilePage (file_page data);
       SetState {| loading := false; error := None |}]
  end.

(** *** loadRoot; [dataroomId] is [None] when the caller passes nothing. *)

Definition loadRoot_request (dataroomId : option Z) : Request :=
  {| url := UrlFoldersRoot dataroomId;
     method := None;
     credentials := Some Include;
     content_type_json := false;
     body := None |}.

Definition loadRoot (srv : Server) (st : State) (dataroomId : option Z)
  : list Effect :=
  let req := loadRoot_request dataroomId in
  SetState {| loading := true; error := None |} ::
  Fetch req ::
  match root srv req with
  | Threw m =>
      [ConsoleError; SetState {| loading := false; error := Some (message_of m) |}]
  | NotOk _ =>
      [ConsoleError;
       SetState {| loading := false;
                   error := Some (MsgText "Failed to resolve root folder") |}]
  | Ok r => loadFolder srv st (fs_id r) (OptObject (Some 1) (Some 1))
  end.

(** [useEffect(() => { loadRoot(); }, [])]: on mount the root is resolved
    without a dataroom id. *)
Definition on_mount (srv : Server) (st : State) : list Effect :=
  loadRoot srv st None.

(** *** loadDatarooms *)

Definition loadDatarooms_request : Request :=
  {| url := UrlDatarooms;
     method := None;
     credentials := Some Include;
     content_type_json := false;
     body := None |}.

Definition loadDatarooms (srv : Server) (st : State) (preferredId : option Z)
  : list Effect :=
  let req := loadDatarooms_request in
  Fetch req ::
  match rooms srv req with
  | Threw m =>
      [ConsoleError; SetState {| loading := false; error := Some (message_of m) |}]
  | NotOk _ =>
      [ConsoleError;
       SetState {| loading := false;
                   error := Some (MsgText "Failed to load datarooms") |}]
  | Ok [] =>
      [SetDatarooms []; SetSelectedDataroom None; SetCurrentFolder None;
       SetState {| loading := false; error := None |}]
  | Ok ((first :: _) as rs) =>
      let nextRoom :=
        match preferredId with
        | Some p =>
            if p =? 0 then first
            else default first (find (λ room, fs_id room =? p) rs)
        | None => first
        end in
      SetDatarooms rs :: SetSelectedDataroom (Some nextRoom) ::
      loadRoot srv st (Some (fs_id nextRoom))
  end.

(** *** The handlers that change the tree *)

Definition createFolder_request (name : jsstring) (parent_id : Z) : Request :=
  {| url := UrlFolders;
     method := Some POST;
     credentials := None;
     content_type_json := true;
     body := Some (BodyCreateFolder name parent_id) |}.

Definition handleCreateFolder (srv : Server) (st : State) (name : jsstring)
  : list Effect :=
  match currentFolder st with
  | None => []
  | Some cf =>
      let req := createFolder_request name (id cf) in
      Fetch req ::
      match mutate srv req with
      | Threw m => [Alert (message_of m)]
      | NotOk _ => [Alert (MsgText "Failed to create folder")]
      | Ok _ => loadFolder srv st (id cf) OptUndefined
      end
  end.

Definition renameFolder_request (folderId : Z) (newName : jsstring) : Request :=
  {| url := UrlFolder folderId;
     method := Some PATCH;
     credentials := None;
     content_type_json := true;
     body := Some (BodyRename newName) |}.

Definition handleRenameFolder (srv : Server) (st : State) (newName : jsstring)
  : list Effect :=
  match fd_folder (renameFolder (dialogs st)) with
  | None => []
  | Some folder =>
      let req := renameFolder_request (fs_id folder) newName in
      Fetch req ::
      match mutate srv req with
      | Threw m => [Alert (message_of m)]
      | NotOk _ => [Alert (MsgText "Failed to rename folder")]
      | Ok _ =>
          match currentFolder st with
          | Some cf =>
              if id cf =? fs_id folder
              then loadFolder srv st (fs_id folder) OptUndefined
              else loadFolder srv st (id cf) OptUndefined
          | None => []
          end
      end
  end.

Definition deleteFolder_request (folderId : Z) : Request :=
  {| url := UrlFolder folderId;
     method := Some DELETE;
     credentials := None;
     content_type_json := false;
     body := None |}.

(** What [handleDeleteFolder] does once the DELETE has succeeded. *)
Inductive Navigation :=
| NavParent (parent : FolderSummary)
| NavRoot
| NavReload (folderId : Z)
| NavNone.

Definition after_delete (st : State) (folder : FolderSummary) : Navigation :=
  match currentFolder st with
  | Some cf =>
      if id cf =? fs_id folder then
        match Js.index (breadcrumbs cf) (Z.of_nat (length (breadcrumbs cf)) - 2) with
        | Some parent => NavParent parent
        | None => NavRoot
        end
      else NavReload (id cf)
  | None => NavNone
  end.

Definition navigate (srv : Server) (st : State) (n : Navigation) : list Effect :=
  match n with
  | NavParent parent => loadFolder srv st (fs_id parent) OptUndefined
  | NavRoot => loadRoot srv st None
  | NavReload folderId => loadFolder srv st folderId OptUndefined
  | NavNone => []
  end.

Definition handleDeleteFolder (srv : Server) (st : State) : list Effect :=
  match fd_folder (deleteFolder (dialogs st)) with
  | None => []
  | Some folder =>
      let req := deleteFolder_request (fs_id folder) in
      Fetch req ::
      match mutate srv req with
      | Threw m => [Alert (message_of m)]
      | NotOk _ => [Alert (MsgText "Failed to delete folder")]
      | Ok _ => navigate srv st (after_delete st folder)
      end
  end.

Definition upload_request (folder_id : Z) : Request :=
  {| url := UrlFiles folder_id;
     method := Some POST;
     credentials := None;
     content_type_json := false;
     body := Some BodyUpload |}.

(** [handleUploadFile]; [picked] says whether the input holds a file. *)
Definition handleUploadFile (srv : Server) (st : State) (picked : bool)
  : list Effect :=
  match currentFolder st with
  | None => []
  | Some cf =>
      if negb picked then []
      else
        let req := upload_request (id cf) in
        Fetch req ::
        (match mutate srv req with
         | Threw m => [Alert (message_of m)]
         | NotOk _ =>
             [Alert (MsgText (default "Failed to upload file"%string
                                (upload_detail srv req)))]
         | Ok _ => loadFolder srv st (id cf) OptUndefined
         end) ++ [ClearFileInput]
  end.

Definition handleOpenFile (file : FileItem) : list Effect :=
  [WindowOpen (UrlFileDownload (fi_id file))].

Definition renameFile_request (fileId : Z) (newName : jsstring) : Request :=
  {| url := UrlFile fileId;
     method := Some PATCH;
     credentials := None;
     content_type_json := true;
     body := Some (BodyRename newName) |}.

Definition handleRenameFile (srv : Server) (st : State) (newName : jsstring)
  : list Effect :=
  match fl_file (renameFile (dialogs st)) with
  | None => []
  | Some file =>
      let req := renameFile_request (fi_id file) newName in
      Fetch req ::
      match mutate srv req with
      | Threw m => [Alert (message_of m)]
      | NotOk _ => [Alert (MsgText "Failed to rename file")]
      | Ok _ =>
          match currentFolder st with
          | Some cf => loadFolder srv st (id cf) OptUndefined
          | None => []
          end
      end
  end.

Definition deleteFile_request (fileId : Z) : Request :=
  {| url := UrlFile fileId;
     method := Some DELETE;
     credentials := None;
     content_type_json := false;
     body := None |}.

Definition handleDeleteFile (srv : Server) (st : State) : list Effect :=
  match fl_file (deleteFile (dialogs st)) with
  | None => []
  | Some file =>
      let req := deleteFile_request (fi_id file) in
      Fetch req ::
      match mutate srv req with
      | Threw m => [Alert (message_of m)]
      | NotOk _ => [Alert (MsgText "Failed to delete file")]
      | Ok _ =>
          match currentFolder st with
          | Some cf => loadFolder srv st (id cf) OptUndefined
          | None => []
          end
      end
  end.

(** The requests a trace sends. *)
Definition requests (es : list Effect) : list Request :=
  omap (λ e, match e with Fetch r => Some r | _ => None end) es.

(** *** The breadcrumb navigation *)

Definition breadcrumbItems (st : State) : list FolderSummary :=
  match currentFolder st with
  | None => []
  | Some cf => breadcrumbs cf
  end.

(** One rendered crumb: its label, the folder its button loads, whether the
    button is disabled and whether a "/" follows it. *)
Record Crumb := {
  crumb_label : jsstring;
  crumb_target : Z;
  crumb_disabled : bool;
  crumb_separator : bool;
}.

Definition breadcrumb_nav (items : list FolderSummary) : list Crumb :=
  imap (λ index crumb,
          {| crumb_label := fs_name crumb;
             crumb_target := fs_id crumb;
             crumb_disabled :=
               Z.of_nat index =? Z.of_nat (length items) - 1;
             crumb_separator :=
               negb (Z.of_nat index =? Z.of_nat (length items) - 1) |})
       items.

(** *** The pagination footer *)

(** [currentFolder.total_folders > currentFolder.page_size ||
     currentFolder.total_files > currentFolder.page_size] *)
Definition footer_shown (cf : FolderContents) : bool :=
  Js.gt (VNum (total_folders cf)) (get_number cf "page_size")
  || Js.gt (VNum (total_files cf)) (get_number cf "page_size").

(** The footer's buttons read an identifier [currentPage].  App.tsx declares
    no such binding (neither the module nor the component does), so reading
    it throws. *)
Definition currentPage : completion Z := Throw (ReferenceError "currentPage").

Section Footer.
(** The handlers, for whatever reading [currentPage] comes to. *)
Variable page : completion Z.

(** [() => currentFolder && loadFolder(currentFolder.id, currentPage - 1)] *)
Definition previous_onClick (srv : Server) (st : State)
  : completion (list Effect) :=
  match currentFolder st with
  | None => Normal []
  | Some cf =>
      match page with
      | Throw e => Throw e
      | Normal p => Normal (loadFolder srv st (id cf) (OptNumber (p - 1)))
      end
  end.

(** [() => currentFolder && loadFolder(currentFolder.id, currentPage + 1)] *)
Definition next_onClick (srv : Server) (st : State)
  : completion (list Effect) :=
  match currentFolder st with
  | None => Normal []
  | Some cf =>
      match page with
      | Throw e => Throw e
      | Normal p => Normal (loadFolder srv st (id cf) (OptNumber (p + 1)))
      end
  end.

(** The footer itself, as rendered inside the guard: the text
    [Page {currentFolder.page}], then the two buttons with their [disabled]
    attributes; reading [currentPage] for the first of them may throw. *)
Record FooterView := {
  page_text : value;
  previous_disabled : bool;
  next_disabled : bool;
}.

Definition footer_buttons (cf : FolderContents) : completion FooterView :=
  match page with
  | Throw e => Throw e
  | Normal p =>
      Normal
        {| page_text := get_number cf "page";
           previous_disabled := p <=? 1;
           next_disabled :=
             Js.lt (VNum (Z.of_nat (length (folders cf)))) (get_number cf "page_size")
             && Js.lt (VNum (Z.of_nat (length (files cf)))) (get_number cf "page_size") |}
  end.

Definition footer_render (cf : FolderContents) : completion (option FooterView) :=
  if footer_shown cf then
    match footer_buttons cf with
    | Throw e => Throw e
    | Normal v => Normal (Some v)
    end
  else Normal None.

End Footer.

Definition apply_effect (st : State) (e : Effect) : State :=
  match e with
  | SetState s =>
      {| datarooms := datarooms st; selectedDataroom := selectedDataroom st;
         currentFolder := currentFolder st; state := s;
         folderPage := folderPage st; filePage := filePage st;
         dialogs := dialogs st |}
  | SetCurrentFolder c =>
      {| datarooms := datarooms st; selectedDataroom := selectedDataroom st;
         currentFolder := c; state := state st;
         folderPage := folderPage st; filePage := filePage st;
         dialogs := dialogs st |}
  | SetFolderPage n =>
      {| datarooms := datarooms st; selectedDataroom := selectedDataroom st;
         currentFolder := currentFolder st; state := state st;
         folderPage := n; filePage := filePage st;
         dialogs := dialogs st |}
  | SetFilePage n =>
      {| datarooms := datarooms st; selectedDataroom := selectedDataroom st;
         currentFolder := currentFolder st; state := state st;
         folderPage := folderPage st; filePage := n;
         dialogs := dialogs st |}
  | SetDatarooms l =>
      {| datarooms := l; selectedDataroom := selectedDataroom st;
         currentFolder := currentFolder st; state := state st;
         folderPage := folderPage st; filePage := filePage st;
         dialogs := dialogs st |}
  | SetSelectedDataroom d =>
      {| datarooms := datarooms st; selectedDataroom := d;
         currentFolder := currentFolder st; state := state st;
         folderPage := folderPage st; filePage := filePage st;
         dialogs := dialogs st |}
  | Fetch _ | ConsoleError | Alert _ | WindowOpen _ | ClearFileInput => st
  end.

(** The state of the next render. *)
Definition run (st : State) (es : list Effect) : State := foldl apply_effect st es.

End App.

(* ===================================================================== *)
(** ** The storage engine (backend) *)
(* ===================================================================== *)

Module TreeEngine.
Import Js.

(** Modelled from the spec: the error taxonomy of section 7; the backend
    that raises these errors is not part of the sources. *)
Inductive Error :=
| NotFound
| InvalidArgument
| Forbidden
| TooLarge
| UnsupportedType
| Unauthorized
| InvariantViolation
| StorageFailure.

(** Modelled from the spec: the Folder record of section 3 (the backend's
    model classes are missing): name, nullable parent reference, creation
    time.  The id is the key under which the repository holds the row. *)
Record Folder := {
  f_name : jsstring;
  f_parent : option Z;
  f_created_at : Z;
}.

(** Modelled from the spec: the File record of section 3 (missing backend
    model): name, mime type, size, parent folder, content reference,
    creation time. *)
Record File := {
  file_name : jsstring;
  file_mime_type : jsstring;
  file_size_bytes : Z;
  file_folder : Z;
  file_content : Z;
  file_created_at : Z;
}.

(** Modelled from the spec: the metadata repository of section 2 (missing
    backend database layer), the durable record of folders and files. *)
Record Repo := {
  folders : gmap Z Folder;
  files : gmap Z File;
}.

(** Modelled from the spec: a folder summary as the engine produces it
    (missing backend serializer input), before the timestamp is rendered. *)
Record Summary := {
  s_id : Z;
  s_name : jsstring;
  s_created_at : Z;
}.

(** Modelled from the spec: the summary of a folder row (missing backend
    serializer). *)
Definition summary (i : Z) (f : Folder) : Summary :=
  {| s_id := i; s_name := f_name f; s_created_at := f_created_at f |}.

(** Modelled from the spec: the invariant of section 3, "the parent chain
    from any folder reaches the root in finitely many steps"; the backend that
    maintains it is missing.  [path_to_root r x d root]: the chain from [x]
    reaches the root [root] in [d] steps, so [d] is the depth of [x]. *)
Inductive path_to_root (r : Repo) : Z → nat → Z → Prop :=
| path_here x f :
    folders r !! x = Some f → f_parent f = None → path_to_root r x O x
| path_up x f p d root :
    folders r !! x = Some f → f_parent f = Some p →
    path_to_root r p d root → path_to_root r x (S d) root.

(** Modelled from the spec: the same invariant, for every folder of the
    repository (the backend that maintains it is missing). *)
Definition well_formed (r : Repo) : Prop :=
  ∀ x f, folders r !! x = Some f → ∃ d root, path_to_root r x d root.

(** *** breadcrumbs *)

(** Modelled from the spec: the walk of section 4.1 "breadcrumbs" (missing
    backend function): follow parent references from the folder up to the
    root, both ends included; an absent folder is [NotFound], a folder met
    twice is an [InvariantViolation]. *)
Fixpoint walk_up (fuel : nat) (r : Repo) (visited : gset Z) (cur : Z)
  : Error + list Summary :=
  match folders r !! cur with
  | None => inl NotFound
  | Some f =>
      if decide (cur ∈ visited) then inl InvariantViolation
      else
        match f_parent f with
        | None => inr [summary cur f]
        | Some p =>
            match fuel with
            | O => inl InvariantViolation
            | S k =>
                match walk_up k r ({[cur]} ∪ visited) p with
                | inl e => inl e
                | inr chain => inr (summary cur f :: chain)
                end
            end
        end
  end.

(** Modelled from the spec: [breadcrumbs(folder_id)] of section 4.1 (missing
    backend function): the walk, then reversed into root-first order. *)
Definition breadcrumbs (r : Repo) (folder_id : Z) : Error + list Summary :=
  match walk_up (size (folders r)) r ∅ folder_id with
  | inl e => inl e
  | inr chain => inr (reverse chain)
  end.



(** *** list_children *)

(** Modelled from the spec: the stable key of section 4.1 (missing backend
    query): creation time, then id, ascending. *)
Definition key_leb (a b : Z * Z) : bool :=
  (a.1 <? b.1) || ((a.1 =? b.1) && (a.2 <=? b.2)).

(** Modelled from the spec: the order of folder rows by that key (missing
    backend query). *)
Definition folder_order (a b : Z * Folder) : Prop :=
  Is_true (key_leb (f_created_at a.2, a.1) (f_created_at b.2, b.1)).

(** Modelled from the spec: the order of file rows by that key (missing
    backend query). *)
Definition file_order (a b : Z * File) : Prop :=
  Is_true (key_leb (file_created_at a.2, a.1) (file_created_at b.2, b.1)).

#[global] Instance folder_order_dec : RelDecision folder_order.
Proof. intros a b. unfold folder_order. apply _. Defined.

#[global] Instance file_order_dec : RelDecision file_order.
Proof. intros a b. unfold file_order. apply _. Defined.

(** Modelled from the spec: the folder rows directly under a folder (missing
    backend query). *)
Definition child_folders (r : Repo) (folder_id : Z) : gmap Z Folder :=
  filter (λ kv, f_parent kv.2 = Some folder_id) (folders r).

(** Modelled from the spec: the file rows directly under a folder (missing
    backend query). *)
Definition child_files (r : Repo) (folder_id : Z) : gmap Z File :=
  filter (λ kv, file_folder kv.2 = folder_id) (files r).

(** Modelled from the spec: the child folders in the stable order (missing
    backend query). *)
Definition ordered_folders (r : Repo) (folder_id : Z) : list (Z * Folder) :=
  merge_sort folder_order (map_to_list (child_folders r folder_id)).

(** Modelled from the spec: the child files in the stable order (missing
    backend query). *)
Definition ordered_files (r : Repo) (folder_id : Z) : list (Z * File) :=
  merge_sort file_order (map_to_list (child_files r folder_id)).

(** Modelled from the spec: pagination by [{page, page_size}] (missing
    backend query): page [page], counted from 1, of a list, [page_size]
    entries a page. *)
Definition page_of {A} (page page_size : Z) (l : list A) : list A :=
  take (Z.to_nat page_size) (drop (Z.to_nat ((page - 1) * page_size)) l).

Section Wire.
(** The rendering of a timestamp on the wire. *)
Variable render_time : Z → jsstring.

(** Modelled from the spec: a folder summary on the wire (missing backend
    serializer), in the shape of [FolderSummary] of types.ts. *)
Definition wire_summary (s : Summary) : Types.FolderSummary :=
  {| Types.fs_id := s_id s;
     Types.fs_name := s_name s;
     Types.fs_created_at := render_time (s_created_at s) |}.

(** Modelled from the spec: a file on the wire (missing backend serializer),
    in the shape of [FileItem] of types.ts. *)
Definition wire_file (kv : Z * File) : Types.FileItem :=
  {| Types.fi_id := kv.1;
     Types.fi_name := file_name kv.2;
     Types.fi_mime_type := file_mime_type kv.2;
     Types.fi_size_bytes := file_size_bytes kv.2;
     Types.fi_created_at := render_time (file_created_at kv.2) |}.

(** Modelled from the spec: [list_children] of section 4.1 with the response
    shape of section 6 (missing backend endpoint): [NotFound] for an absent
    folder, [InvalidArgument] for malformed pagination parameters, else one
    page of folders, one page of files, both totals and the cursors. *)
Definition list_children (r : Repo) (folder_id : Z)
    (folder_page folder_page_size file_page file_page_size : Z)
  : Error + Types.FolderContents :=
  match folders r !! folder_id with
  | None => inl NotFound
  | Some f =>
      if (folder_page <? 1) || (folder_page_size <? 1)
         || (file_page <? 1) || (file_page_size <? 1)
      then inl InvalidArgument
      else
        match breadcrumbs r folder_id with
        | inl e => inl e
        | inr crumbs =>
            let all_folders := ordered_folders r folder_id in
            let all_files := ordered_files r folder_id in
            inr {| Types.id := folder_id;
                   Types.name := f_name f;
                   Types.breadcrumbs := map wire_summary crumbs;
                   Types.folders :=
                     map (λ kv, wire_summary (summary kv.1 kv.2))
                         (page_of folder_page folder_page_size all_folders);
                   Types.files :=
                     map wire_file (page_of file_page file_page_size all_files);
                   Types.total_folders := Z.of_nat (length all_folders);
                   Types.total_files := Z.of_nat (length all_files);
                   Types.folder_page := folder_page;
                   Types.folder_page_size := folder_page_size;
                   Types.file_page := file_page;
                   Types.file_page_size := file_page_size |}
        end
  end.

End Wire.

(** Modelled from the spec: the JSON object of a folder listing, section 6
    (missing backend serializer); only the members' names matter here. *)
#[warnings="-register-all"]
Inductive Json :=
| JNum (n : Z)
| JStr (s : jsstring)
| JArr (n : nat)
| JObj (members : list (string * Json)).

(** Modelled from the spec: the members of a folder listing, section 6
    (missing backend serializer). *)
Definition encode_listing (c : Types.FolderContents) : Json :=
  JObj [("id", JNum (Types.id c));
        ("name", JStr (Types.name c));
        ("breadcrumbs", JArr (length (Types.breadcrumbs c)));
        ("folders", JArr (length (Types.folders c)));
        ("files", JArr (length (Types.files c)));
        ("total_folders", JNum (Types.total_folders c));
        ("total_files", JNum (Types.total_files c));
        ("folder_page", JNum (Types.folder_page c));
        ("folder_page_size", JNum (Types.folder_page_size c));
        ("file_page", JNum (Types.file_page c));
        ("file_page_size", JNum (Types.file_page_size c))]%string.

(** Modelled from the spec: the member names of a response object (missing
    backend serializer). *)
Definition member_names (j : Json) : list string :=
  match j with
  | JObj members => members.*1
  | _ => []
  end.

(** *** delete *)

(** Modelled from the spec: "descendant folder" of section 4.1 (the backend
    that walks the tree is missing).  [descends r a k x]: folder [x] lies [k]
    levels below folder [a]. *)
Inductive descends (r : Repo) (a : Z) : nat → Z → Prop :=
| descends_self : descends r a O a
| descends_child x f p k :
    folders r !! x = Some f → f_parent f = Some p →
    descends r a k p → descends r a (S k) x.

(** Modelled from the spec: the subtree of a folder (missing backend
    function): [x] is [a] itself or one of its descendant folders. *)
Definition in_subtree (r : Repo) (a x : Z) : Prop := ∃ k, descends r a k x.

(** Modelled from the spec: the ids of the folders directly under a folder
    (missing backend query). *)
Definition children_ids (r : Repo) (folder_id : Z) : list Z :=
  (map_to_list (child_folders r folder_id)).*1.

(** Modelled from the spec: the depth-first traversal of section 4.1
    "delete" that collects the folder and all its descendant folders (missing
    backend function); a folder comes before the folders below it. *)
Fixpoint collect_folders (fuel : nat) (r : Repo) (x : Z) : list Z :=
  match fuel with
  | O => []
  | S k => x :: flat_map (collect_folders k r) (children_ids r x)
  end.

(** Modelled from the spec: the descendant files of section 4.1 "delete"
    (missing backend function): the files held by the collected folders. *)
Definition collect_files (r : Repo) (ids : list Z) : gmap Z File :=
  filter (λ kv, file_folder kv.2 ∈ ids) (files r).

(** Modelled from the spec: one statement of the metadata transaction
    (missing backend database layer). *)
Inductive RowOp :=
| DeleteFileRow (file_id : Z)
| DeleteFolderRow (folder_id : Z).

(** Modelled from the spec: the effect of one statement on the rows (missing
    backend database layer). *)
Definition apply_op (r : Repo) (op : RowOp) : Repo :=
  match op with
  | DeleteFileRow i => {| folders := folders r; files := delete i (files r) |}
  | DeleteFolderRow i => {| folders := delete i (folders r); files := files r |}
  end.

(** Modelled from the spec: the run of a transaction's statements (missing
    backend database layer), in order on a working copy; [fails k] tells
    whether the repository fails at step [k], the commit being the last
    step. *)
Fixpoint run_ops (fails : nat → bool) (k : nat) (r : Repo) (ops : list RowOp)
  : option Repo :=
  match ops with
  | [] => if fails k then None else Some r
  | op :: rest =>
      if fails k then None else run_ops fails (S k) (apply_op r op) rest
  end.

(** Modelled from the spec: "a single logical transaction against the
    metadata repository" (sections 4.1, 5 and 7; the backend's database
    session is missing): the working copy is committed when every step
    succeeded, and dropped for the state before the transaction otherwise. *)
Definition transaction (fails : nat → bool) (r : Repo) (ops : list RowOp)
  : Repo * (Error + unit) :=
  match run_ops fails O r ops with
  | Some r' => (r', inr tt)
  | None => (r, inl StorageFailure)
  end.

(** Modelled from the spec: the statements of a cascade delete, section 4.1
    (missing backend function): the files' rows, then the folders' rows
    innermost-first. *)
Definition cascade_ops (r : Repo) (folder_id : Z) : list RowOp :=
  let ids := collect_folders (size (folders r)) r folder_id in
  map DeleteFileRow (map_to_list (collect_files r ids)).*1
  ++ map DeleteFolderRow (reverse ids).

(** Modelled from the spec: the content references of the files a cascade
    delete removes (missing backend function). *)
Definition cascade_blobs (r : Repo) (folder_id : Z) : gset Z :=
  let ids := collect_folders (size (folders r)) r folder_id in
  list_to_set ((λ kv, file_content kv.2) <$> map_to_list (collect_files r ids)).

(** Modelled from the spec: [delete(node_id)] for a folder, section 4.1
    (missing backend function).  [NotFound] for an absent folder, [Forbidden]
    for a root; else the files' content is deleted first, best effort (a blob
    whose deletion fails stays, [blob_fails] tells which), then the metadata
    rows go in one transaction. *)
Definition delete_folder (fails : nat → bool) (blob_fails : Z → bool)
    (r : Repo) (blobs : gset Z) (folder_id : Z)
  : Repo * gset Z * (Error + unit) :=
  match folders r !! folder_id with
  | None => (r, blobs, inl NotFound)
  | Some f =>
      match f_parent f with
      | None => (r, blobs, inl Forbidden)
      | Some _ =>
          let gone :=
            filter (λ c, blob_fails c = false) (cascade_blobs r folder_id) in
          let '(r', res) := transaction fails r (cascade_ops r folder_id) in
          (r', blobs ∖ gone, res)
      end
  end.

(** Modelled from the spec: "the whole subtree's metadata is removed",
    section 4.1 (the backend that does it is missing): the rows of the subtree
    under [a] are gone from [r'], and every other row is as in [r]. *)
Definition subtree_removed (r : Repo) (a : Z) (r' : Repo) : Prop :=
  (∀ x, in_subtree r a x → folders r' !! x = None)
  ∧ (∀ x, ¬ in_subtree r a x → folders r' !! x = folders r !! x)
  ∧ (∀ i fl, files r !! i = Some fl → in_subtree r a (file_folder fl) →
             files r' !! i = None)
  ∧ (∀ i fl, files r !! i = Some fl → ¬ in_subtree r a (file_folder fl) →
             files r' !! i = Some fl)
  ∧ (∀ i, files r !! i = None → files r' !! i = None).

End TreeEngine.

(* ===================================================================== *)
(** ** components/LoginForm.tsx *)
(* ===================================================================== *)

Module LoginForm.
Import Js.

(** What awaiting [login] or [register] comes to: it resolves, or it rejects
    with an [Error] carrying a message ([Some]) or with another value. *)
Inductive AuthOutcome := Resolved | Rejected (message : option jsstring).

Inductive Effect :=
| PreventDefault
| SetError (e : jsstring)
| SetLoading (b : bool)
| Login (email password : jsstring).

Record State := {
  email : jsstring;
  password : jsstring;
  error : jsstring;
  loading : bool;
}.

(** [handleSubmit], with the fields of the render and what [login] comes
    to. *)
Definition handleSubmit (outcome : AuthOutcome) (s : State) : list Effect :=
  [PreventDefault; SetError []; SetLoading true; Login (email s) (password s)]
  ++ (match outcome with
      | Resolved => []
      | Rejected m => [SetError (default (of_string "Login failed") m)]
      end)
  ++ [SetLoading false].

Definition apply_effect (s : State) (e : Effect) : State :=
  match e with
  | SetError x =>
      {| email := email s; password := password s; error := x; loading := loading s |}
  | SetLoading b =>
      {| email := email s; password := password s; error := error s; loading := b |}
  | PreventDefault | Login _ _ => s
  end.

Definition run (s : State) (es : list Effect) : State := foldl apply_effect s es.

(** The calls to [login] of a trace. *)
Definition logins (es : list Effect) : list (jsstring * jsstring) :=
  omap (λ e, match e with Login a b => Some (a, b) | _ => None end) es.

(** [{error && <div>...}] and [disabled={loading}]. *)
Definition error_shown (s : State) : bool := truthy (error s).
Definition submit_disabled (s : State) : bool := loading s.

End LoginForm.

(* ===================================================================== *)
(** ** components/RegisterForm.tsx *)
(* ===================================================================== *)

Module RegisterForm.
Import Js.

Inductive Effect :=
| PreventDefault
| SetError (e : jsstring)
| SetLoading (b : bool)
| Register (email password : jsstring).

Record State := {
  email : jsstring;
  password : jsstring;
  confirmPassword : jsstring;
  error : jsstring;
  loading : bool;
}.

(** [handleSubmit]; [password.length] counts UTF-16 code units. *)
Definition handleSubmit (outcome : LoginForm.AuthOutcome) (s : State)
  : list Effect :=
  PreventDefault :: SetError [] ::
  (if negb (strict_eq (password s) (confirmPassword s))
   then [SetError (of_string "Passwords do not match")]
   else if Z.of_nat (length (password s)) <? 6
   then [SetError (of_string "Password must be at least 6 characters")]
   else
     SetLoading true ::
     Register (email s) (password s) ::
     (match outcome with
      | LoginForm.Resolved => []
      | LoginForm.Rejected m =>
          [SetError (default (of_string "Registration failed") m)]
      end)
     ++ [SetLoading false]).

Definition apply_effect (s : State) (e : Effect) : State :=
  match e with
  | SetError x =>
      {| email := email s; password := password s;
         confirmPassword := confirmPassword s; error := x; loading := loading s |}
  | SetLoading b =>
      {| email := email s; password := password s;
         confirmPassword := confirmPassword s; error := error s; loading := b |}
  | PreventDefault | Register _ _ => s
  end.

Definition run (s : State) (es : list Effect) : State := foldl apply_effect s es.

(** The calls to [register] of a trace. *)
Definition registrations (es : list Effect) : list (jsstring * jsstring) :=
  omap (λ e, match e with Register a b => Some (a, b) | _ => None end) es.

Definition error_shown (s : State) : bool := truthy (error s).

End RegisterForm.

(* ===================================================================== *)
(** ** components/SearchBar.tsx: the dropdown and its rows *)
(* ===================================================================== *)

Module SearchBarView.
Import Js Types Http SearchBar.

(** What the component renders under the input. *)
Inductive View :=
| Hidden
| Searching
| NoResults
| Results (folders : option (list FolderSummary)) (files : option (list FileItem)).

(** [{results && (isSearching ? ... : both empty ? ... : sections)}]; a
    section is rendered only for a list that is not empty. *)
Definition dropdown (s : State) : View :=
  match results s with
  | None => Hidden
  | Some r =>
      if isSearching s then Searching
      else if (Z.of_nat (length (sr_folders r)) =? 0)
              && (Z.of_nat (length (sr_files r)) =? 0)
      then NoResults
      else
        Results
          (if 0 <? Z.of_nat (length (sr_folders r)) then Some (sr_folders r) else None)
          (if 0 <? Z.of_nat (length (sr_files r)) then Some (sr_files r) else None)
  end.

Definition clearSearch : list Effect := [SetQuery []; SetResults None].

(** A click on a row: the callback of the parent, then [clearSearch]. *)
Inductive Click :=
| OnFolderClick (folderId : Z)
| OnFileClick (file : FileItem)
| Own (e : Effect).

Definition folder_row_onClick (folder : FolderSummary) : list Click :=
  OnFolderClick (fs_id folder) :: map Own clearSearch.

Definition file_row_onClick (file : FileItem) : list Click :=
  OnFileClick file :: map Own clearSearch.

(** The setters of a click, to run on the state. *)
Definition own_effects (cs : list Click) : list Effect :=
  omap (λ c, match c with Own e => Some e | _ => None end) cs.

(** The part of a handler's trace that runs before its fetch is awaited:
    the state it leads to is the one rendered while the request is pending. *)
Fixpoint until_fetch (es : list Effect) : list Effect :=
  match es with
  | [] => []
  | Fetch _ :: _ => []
  | e :: rest => e :: until_fetch rest
  end.

Definition pending (s : State) (response : Outcome SearchResults)
    (searchQuery : jsstring) : State :=
  run s (until_fetch (handleSearch response searchQuery)).

End SearchBarView.

(* ===================================================================== *)
(** ** App.tsx: the dialogs as App wires them, and the clickable items *)
(* ===================================================================== *)

Module AppWiring.
Import Js Types Http App.

(** What a submitted dialog does in App: effects of App's handlers, the
    [setDialogs] of the [onOpenChange] prop, and the dialog's own
    [setName]. *)
Inductive UiEffect :=
| AppEffect (e : Effect)
| SetDialogs (d : DialogState)
| SetDialogName (n : jsstring).

(** An async handler runs up to its first fetch within the call; what
    follows the fetch runs after the caller has gone on. *)
Fixpoint sync_part (es : list Effect) : list Effect :=
  match es with
  | [] => []
  | Fetch r :: _ => [Fetch r]
  | e :: rest => e :: sync_part rest
  end.

Fixpoint async_part (es : list Effect) : list Effect :=
  match es with
  | [] => []
  | Fetch _ :: rest => rest
  | _ :: rest => async_part rest
  end.

(** [onOpenChange={(open) => setDialogs({ ...dialogs, createFolder: open })}] *)
Definition createFolder_onOpenChange (st : State) (open : bool) : DialogState :=
  {| createFolder := open;
     renameFolder := renameFolder (dialogs st);
     renameFile := renameFile (dialogs st);
     deleteFolder := deleteFolder (dialogs st);
     deleteFile := deleteFile (dialogs st) |}.



(** The create dialog submitted with [name] in its input, with
    [onConfirm={handleCreateFolder}]: the handler's part up to its fetch,
    then the rest of the dialog's handler, then what follows the fetch. *)
Definition submit_create (srv : Server) (st : State) (name : jsstring)
  : list UiEffect :=
  match CreateFolderDialog.handleSubmit name with
  | [CreateFolderDialog.PreventDefault;
     CreateFolderDialog.OnConfirm n;
     CreateFolderDialog.SetName cleared;
     CreateFolderDialog.OnOpenChange open] =>
      map AppEffect (sync_part (handleCreateFolder srv st n))
      ++ [SetDialogName cleared; SetDialogs (createFolder_onOpenChange st open)]
      ++ map AppEffect (async_part (handleCreateFolder srv st n))
  | _ => []
  end.






(** The dialog state a trace leaves, if it sets one. *)
Definition ui_dialogs (es : list UiEffect) : option DialogState :=
  last (omap (λ e, match e with SetDialogs d => Some d | _ => None end) es).

(** [onClick={() => loadFolder(folder.id)}] of a folder card,
    [onClick={() => loadFolder(crumb.id)}] of a breadcrumb and
    [onFolderClick={(id) => loadFolder(id)}] of the search bar. *)
Definition folder_card_onClick (srv : Server) (st : State) (folder : FolderSummary)
  : list Effect := loadFolder srv st (fs_id folder) OptUndefined.
Definition crumb_onClick (srv : Server) (st : State) (crumb : FolderSummary)
  : list Effect := loadFolder srv st (fs_id crumb) OptUndefined.
Definition search_onFolderClick (srv : Server) (st : State) (folderId : Z)
  : list Effect := loadFolder srv st folderId OptUndefined.

(** The alerts a trace raises. *)
Definition alerts (es : list Effect) : list Message :=
  omap (λ e, match e with Alert m => Some m | _ => None end) es.

(** ToBoolean on [state.error]: [null] and the empty text are falsy. *)
Definition message_shown (m : option Message) : bool :=
  match m with
  | None => false
  | Some (MsgText s) => negb (String.eqb s "")
  | Some (MsgUnableToLoadFolder _) => true
  end.

(** What [main] shows: the loading panel and the error panel each on their
    own condition, the folder only when neither shows. *)
Record MainView := {
  loading_panel : bool;
  error_panel : option Message;
  folder_panel : option FolderContents;
}.

Definition main_view (st : State) : MainView :=
  {| loading_panel := loading (state st);
     error_panel :=
       if message_shown (error (state st)) then error (state st) else None;
     folder_panel :=
       if negb (loading (state st)) && negb (message_shown (error (state st)))
       then currentFolder st
       else None |}.

End AppWiring.

(* ===================================================================== *)
(** ** Concrete states, servers and repositories used as examples *)
(* ===================================================================== *)

Module Fixtures.
Import Js Types Http App.

(** The state and the listing of a folder with 120 subfolders, shown on its
    first page. *)
Definition no_dialogs : DialogState :=
  {| createFolder := false;
     renameFolder := {| fd_open := false; fd_folder := None |};
     renameFile := {| fl_open := false; fl_file := None |};
     deleteFolder := {| fd_open := false; fd_folder := None |};
     deleteFile := {| fl_open := false; fl_file := None |} |}.

Definition acme : FolderSummary :=
  {| fs_id := 1; fs_name := of_string "Acme Dataroom";
     fs_created_at := of_string "2024-01-01T00:00:00Z" |}.

Definition crowded_listing : FolderContents :=
  {| id := 1; name := of_string "Acme Dataroom"; breadcrumbs := [acme];
     folders := replicate 50 acme; files := [];
     total_folders := 120; total_files := 0;
     folder_page := 1; folder_page_size := 50;
     file_page := 1; file_page_size := 50 |}.

Definition crowded_state : State :=
  {| datarooms := [acme]; selectedDataroom := Some acme;
     currentFolder := Some crowded_listing;
     state := {| loading := false; error := None |};
     folderPage := 1; filePage := 1;
     dialogs := no_dialogs |}.

(** A server that accepts every change and has lost every folder. *)
Definition forgetful_server : Server :=
  {| contents := λ _, NotOk 404;
     root := λ _, NotOk 404;
     rooms := λ _, NotOk 404;
     mutate := λ _, Ok tt;
     upload_detail := λ _, None |}.

Definition docs : FolderSummary :=
  {| fs_id := 2; fs_name := of_string "Project Docs";
     fs_created_at := of_string "2024-01-02T00:00:00Z" |}.

Definition plans : FolderSummary :=
  {| fs_id := 5; fs_name := of_string "Plans";
     fs_created_at := of_string "2024-01-06T00:00:00Z" |}.

(** The listing of "Project Docs", a child of the root, holding "Plans". *)
Definition docs_listing : FolderContents :=
  {| id := 2; name := of_string "Project Docs"; breadcrumbs := [acme; docs];
     folders := [plans]; files := [];
     total_folders := 1; total_files := 0;
     folder_page := 1; folder_page_size := 50;
     file_page := 1; file_page_size := 50 |}.

(** "Project Docs" is on screen and the delete dialog is open on [target]. *)
Definition deleting (target : FolderSummary) : State :=
  {| datarooms := [acme]; selectedDataroom := Some acme;
     currentFolder := Some docs_listing;
     state := {| loading := false; error := None |};
     folderPage := 3; filePage := 2;
     dialogs :=
       {| createFolder := false;
          renameFolder := {| fd_open := false; fd_folder := None |};
          renameFile := {| fl_open := false; fl_file := None |};
          deleteFolder := {| fd_open := true; fd_folder := Some target |};
          deleteFile := {| fl_open := false; fl_file := None |} |} |}.

End Fixtures.

Module RepoFixtures.
Import Js TreeEngine.

(** The repository of the specification's scenario: root R (1) holding
    A (2) and C (4), A holding B (3), "doc.pdf" in B and "notes.pdf" in R. *)
Definition sample_repo : Repo :=
  {| folders :=
       <[1 := {| f_name := of_string "R"; f_parent := None; f_created_at := 100 |}]>
       (<[2 := {| f_name := of_string "A"; f_parent := Some 1; f_created_at := 110 |}]>
       (<[3 := {| f_name := of_string "B"; f_parent := Some 2; f_created_at := 120 |}]>
       (<[4 := {| f_name := of_string "C"; f_parent := Some 1; f_created_at := 105 |}]>
        ∅)));
     files :=
       <[10 := {| file_name := of_string "doc.pdf";
                 file_mime_type := of_string "application/pdf";
                 file_size_bytes := 10; file_folder := 3; file_content := 900;
                 file_created_at := 130 |}]>
       (<[11 := {| file_name := of_string "notes.pdf";
                  file_mime_type := of_string "application/pdf";
                  file_size_bytes := 2048; file_folder := 1; file_content := 901;
                  file_created_at := 140 |}]>
        ∅) |}.

Definition sample_blobs : gset Z := {[900; 901]}.

Definition sample_time (t : Z) : jsstring := of_string "2024-01-01T00:00:00Z".

End RepoFixtures.

(* ===================================================================== *)
(** ** More servers and states used as examples *)
(* ===================================================================== *)

Module MoreFixtures.
Import Js Types Http App Fixtures.

(** A server that refuses every change. *)
Definition refusing_server : Server :=
  {| contents := λ _, NotOk 404;
     root := λ _, NotOk 404;
     rooms := λ _, NotOk 404;
     mutate := λ _, NotOk 403;
     upload_detail := λ _, Some "Only PDF uploads are supported"%string |}.

Definition vault : FolderSummary :=
  {| fs_id := 7; fs_name := of_string "Vault";
     fs_created_at := of_string "2024-02-01T00:00:00Z" |}.

(** "Project Docs" as listed on its third page of folders and second page of
    files. *)
Definition docs_page_three : FolderContents :=
  {| id := 2; name := of_string "Project Docs"; breadcrumbs := [acme; docs];
     folders := [plans]; files := [];
     total_folders := 101; total_files := 51;
     folder_page := 3; folder_page_size := 50;
     file_page := 2; file_page_size := 50 |}.

(** A server with two datarooms that answers every listing with that page. *)
Definition paging_server : Server :=
  {| contents := λ _, Ok docs_page_three;
     root := λ _, Ok acme;
     rooms := λ _, Ok [acme; vault];
     mutate := λ _, Ok tt;
     upload_detail := λ _, None |}.

Definition shown_results : SearchBar.SearchResults :=
  {| SearchBar.sr_folders := [docs]; SearchBar.sr_files := [] |}.

Definition searched_state : SearchBar.State :=
  {| SearchBar.query := of_string "doc";
     SearchBar.results := Some shown_results;
     SearchBar.isSearching := false |}.

Definition overview_pdf : FileItem :=
  {| fi_id := 11; fi_name := of_string "Overview.pdf";
     fi_mime_type := of_string "application/pdf";
     fi_size_bytes := 2048;
     fi_created_at := of_string "2024-01-04T00:00:00Z" |}.

End MoreFixtures.

(* ===================================================================== *)
(** * Properties *)
(* ===================================================================== *)

(** ** String.prototype.trim *)

Section TrimFacts.
Import Js.

Lemma whitespace_only_app (a b : jsstring) :
  whitespace_only (a ++ b) = whitespace_only a && whitespace_only b.
Proof. unfold whitespace_only. apply forallb_app. Qed.

Lemma whitespace_only_rev (s : jsstring) :
  whitespace_only (rev s) = whitespace_only s.
Proof.
  induction s as [|c s IH]; [reflexivity|].
  simpl. rewrite whitespace_only_app, IH. simpl.
  rewrite andb_true_r. apply andb_comm.
Qed.

Lemma trimStart_head (s : jsstring) c rest :
  trimStart s = c :: rest → is_trimmed_char c = false.
Proof.
  induction s as [|a s IH]; simpl; [discriminate|].
  destruct (is_trimmed_char a) eqn:Ha; [exact IH|].
  intros [= <- _]. exact Ha.
Qed.

Lemma trimStart_nil (s : jsstring) :
  trimStart s = [] ↔ whitespace_only s = true.
Proof.
  induction s as [|a s IH]; simpl; [tauto|].
  destruct (is_trimmed_char a); simpl; [exact IH|].
  split; discriminate.
Qed.

Lemma trimStart_whitespace_only (s : jsstring) :
  whitespace_only (trimStart s) = whitespace_only s.
Proof.
  induction s as [|a s IH]; simpl; [reflexivity|].
  destruct (is_trimmed_char a) eqn:Ha; simpl; [exact IH|].
  now rewrite Ha.
Qed.

Lemma trim_nil (s : jsstring) : trim s = [] ↔ whitespace_only s = true.
Proof.
  unfold trim, trimEnd.
  rewrite <- (trimStart_whitespace_only s), <- (whitespace_only_rev (trimStart s)).
  rewrite <- trimStart_nil.
  split; intros H.
  - apply (f_equal (@rev _)) in H. now rewrite rev_involutive in H.
  - now rewrite H.
Qed.

Lemma truthy_trim (s : jsstring) : truthy (trim s) = negb (whitespace_only s).
Proof.
  destruct (whitespace_only s) eqn:Hw; simpl.
  - apply trim_nil in Hw. now rewrite Hw.
  - destruct (trim s) eqn:Ht; [|reflexivity].
    apply trim_nil in Ht. congruence.
Qed.

(** What [trim] returns is never a non-empty run of whitespace. *)
Lemma trim_not_blank (s : jsstring) :
  trim s ≠ [] → whitespace_only (trim s) = false.
Proof.
  unfold trim, trimEnd. intros Hne.
  destruct (trimStart (rev (trimStart s))) as [|c rest] eqn:Ht; [done|].
  apply trimStart_head in Ht.
  simpl. rewrite whitespace_only_app. simpl.
  rewrite Ht. now rewrite andb_false_r.
Qed.

End TrimFacts.

(** ** The search bar *)

Section SearchBarFacts.
Import Js Http SearchBar.

Example trim_example :
  trim (of_string "  Q1 report ") = of_string "Q1 report".
Proof. reflexivity. Qed.

Example handleSearch_example (data : SearchResults) :
  requests (handleSearch (Ok data) (of_string "quarter"))
  = [search_request (of_string "quarter")].
Proof. reflexivity. Qed.

(** C5.  For a query that is empty or made of whitespace only, [handleSearch]
    only records the query and clears the results: it sends no request, and
    in the next render no results are held or shown, whatever was displayed
    before and whatever the server would have answered. *)
Theorem blank_query_clears_results_without_request
    (response : Outcome SearchResults) (st : State) (searchQuery : jsstring) :
  whitespace_only searchQuery = true →
  handleSearch response searchQuery = [SetQuery searchQuery; SetResults None]
  ∧ requests (handleSearch response searchQuery) = []
  ∧ results (run st (handleSearch response searchQuery)) = None
  ∧ dropdown_shown (run st (handleSearch response searchQuery)) = false
  ∧ query (run st (handleSearch response searchQuery)) = searchQuery.
Proof.
  intros Hblank.
  assert (Hrun : handleSearch response searchQuery
                 = [SetQuery searchQuery; SetResults None]).
  { unfold handleSearch. now rewrite truthy_trim, Hblank. }
  rewrite Hrun. repeat split.
Qed.

Lemma blank_query_clears_results_without_request_witness :
  let q := Js.of_string "   " in
  let shown := {| sr_folders := []; sr_files := [] |} in
  let st := {| query := Js.of_string "a"; results := Some shown;
               isSearching := false |} in
  handleSearch (Ok shown) q = [SetQuery q; SetResults None]
  ∧ requests (handleSearch (Ok shown) q) = []
  ∧ results (run st (handleSearch (Ok shown) q)) = None
  ∧ dropdown_shown (run st (handleSearch (Ok shown) q)) = false
  ∧ query (run st (handleSearch (Ok shown) q)) = q.
Proof.
  intros q shown st.
  apply (blank_query_clears_results_without_request (Ok shown) st q).
  reflexivity.
Defined.

(** A well-formed query with a visible character does reach the server,
    verbatim. *)
Lemma visible_query_is_sent (response : Outcome SearchResults) (q : jsstring) :
  whitespace_only q = false → well_formed q = true →
  requests (handleSearch response q) = [search_request q].
Proof.
  intros Hq Hwf. unfold handleSearch. rewrite truthy_trim, Hq, Hwf. simpl.
  destruct response; reflexivity.
Qed.

End SearchBarFacts.

(** ** The create-folder dialog *)

Section CreateFolderDialogFacts.
Import Js CreateFolderDialog.

Example create_submit_example :
  handleSubmit (of_string " Docs ")
  = [PreventDefault; OnConfirm (of_string "Docs"); SetName []; OnOpenChange false].
Proof. reflexivity. Qed.

(** C6.  Whatever the input holds, [handleSubmit] either calls nothing
    (exactly when the input is empty or whitespace only, in which case the
    confirm button is disabled too), or calls [onConfirm] once, with the
    trimmed input, which is then neither empty nor whitespace only. *)
Theorem create_folder_never_confirms_blank_name (name : jsstring) :
  (whitespace_only name = true
   ∧ handleSubmit name = [PreventDefault]
   ∧ confirmed (handleSubmit name) = []
   ∧ confirm_disabled name = true)
  ∨ (whitespace_only name = false
     ∧ handleSubmit name
       = [PreventDefault; OnConfirm (trim name); SetName []; OnOpenChange false]
     ∧ confirmed (handleSubmit name) = [trim name]
     ∧ trim name ≠ []
     ∧ whitespace_only (trim name) = false
     ∧ confirm_disabled name = false).
Proof.
  unfold handleSubmit, confirm_disabled.
  rewrite truthy_trim.
  destruct (whitespace_only name) eqn:Hw; simpl; [left; done|right].
  assert (Hne : trim name ≠ []).
  { intros Ht. apply trim_nil in Ht. congruence. }
  repeat split; try done.
  now apply trim_not_blank.
Qed.

End CreateFolderDialogFacts.

(** ** The rename dialog *)

Section RenameDialogFacts.
Import Js RenameDialog.

Example rename_submit_example :
  handleSubmit (of_string "Plan v2 ") (of_string "Plan")
  = [PreventDefault; OnConfirm (of_string "Plan v2"); OnOpenChange false].
Proof. reflexivity. Qed.

Example rename_same_name_example :
  handleSubmit (of_string "Plan") (of_string "Plan") = [PreventDefault].
Proof. reflexivity. Qed.

(** C7.  Whatever the input and the current name are, [handleSubmit] either
    calls nothing, which it does whenever the input is empty, whitespace only
    or identical to the current name (the submit button is disabled in
    exactly these cases), or calls [onConfirm] once, with the trimmed input,
    which is then neither empty nor whitespace only. *)
Theorem rename_never_confirms_blank_or_same_name (name currentName : jsstring) :
  ((whitespace_only name = true ∨ name = currentName)
   ∧ handleSubmit name currentName = [PreventDefault]
   ∧ confirmed (handleSubmit name currentName) = []
   ∧ submit_disabled name currentName = true)
  ∨ (whitespace_only name = false
     ∧ name ≠ currentName
     ∧ handleSubmit name currentName
       = [PreventDefault; OnConfirm (trim name); OnOpenChange false]
     ∧ confirmed (handleSubmit name currentName) = [trim name]
     ∧ trim name ≠ []
     ∧ whitespace_only (trim name) = false
     ∧ submit_disabled name currentName = false).
Proof.
  unfold handleSubmit, submit_disabled, strict_eq.
  rewrite truthy_trim.
  destruct (whitespace_only name) eqn:Hw; simpl.
  { left. repeat split; auto. }
  case_bool_decide as Heq; simpl.
  { left. repeat split; auto. }
  right.
  assert (Hne : trim name ≠ []).
  { intros Ht. apply trim_nil in Ht. congruence. }
  repeat split; try done.
  now apply trim_not_blank.
Qed.

End RenameDialogFacts.

(** ** App: folder listings and the pagination footer *)

Section PaginationFacts.
Import Js Types Http App Fixtures.

(** Every folder-contents request carries a folder cursor and a file cursor
    of its own, each with a page size of 50; a cursor the caller gives
    replaces the one held in the state, independently of the other. *)
Lemma loadFolder_sends_both_cursors (srv : Server) (st : State) (folderId : Z)
    (options : LoadOptions) :
  ∃ rest,
    loadFolder srv st folderId options
    = SetState {| loading := true; error := None |}
      :: Fetch (loadFolder_request st folderId options) :: rest
    ∧ requests rest = []
    ∧ url (loadFolder_request st folderId options)
      = UrlFolderContents folderId
          {| p_folder_page := default (folderPage st) (opt_folderPage options);
             p_folder_page_size := 50;
             p_file_page := default (filePage st) (opt_filePage options);
             p_file_page_size := 50 |}.
Proof.
  unfold loadFolder.
  destruct (contents srv (loadFolder_request st folderId options));
    eexists; repeat split.
Qed.

(** After a listing arrived, the next render holds it together with the two
    cursors the response reports. *)
Lemma loadFolder_ok_updates_cursors (srv : Server) (st : State) (folderId : Z)
    (options : LoadOptions) (data : FolderContents) :
  contents srv (loadFolder_request st folderId options) = Ok data →
  currentFolder (run st (loadFolder srv st folderId options)) = Some data
  ∧ folderPage (run st (loadFolder srv st folderId options)) = folder_page data
  ∧ filePage (run st (loadFolder srv st folderId options)) = file_page data.
Proof.
  intros Hok. unfold loadFolder. rewrite Hok. repeat split.
Qed.

Lemma loadFolder_object_cursors (st : State) (fp flp : Z) :
  loadFolder_params st (OptObject (Some fp) None)
  = {| p_folder_page := fp; p_folder_page_size := 50;
       p_file_page := filePage st; p_file_page_size := 50 |}
  ∧ loadFolder_params st (OptObject None (Some flp))
    = {| p_folder_page := folderPage st; p_folder_page_size := 50;
         p_file_page := flp; p_file_page_size := 50 |}.
Proof. split; reflexivity. Qed.

(** C1 (where the code departs from it).  A folder-contents request does
    carry a folder cursor and a file cursor of its own, each with page size
    50, but the pagination footer does not advance two cursors.  It is shown
    only if a total exceeds the listing's
    [page_size], a property no listing has, so it is never shown; its buttons
    read the one identifier [currentPage], which is not declared, so
    rendering them throws and so does a click, before any request is made;
    and were [currentPage] bound to a number, [loadFolder] would find neither
    [folderPage] nor [filePage] on it and ask again for the two cursors
    already held. *)
Theorem pagination_footer_advances_no_cursor :
  (∀ st folderId fp flp,
     url (loadFolder_request st folderId (OptObject (Some fp) (Some flp)))
     = UrlFolderContents folderId
         {| p_folder_page := fp; p_folder_page_size := 50;
            p_file_page := flp; p_file_page_size := 50 |})
  ∧ (∀ cf, footer_shown cf = false)
  ∧ footer_render currentPage crowded_listing = Normal None
  ∧ (∀ cf, footer_buttons currentPage cf = Throw (ReferenceError "currentPage"))
  ∧ (∀ srv, next_onClick currentPage srv crowded_state
            = Throw (ReferenceError "currentPage"))
  ∧ (∀ srv, previous_onClick currentPage srv crowded_state
            = Throw (ReferenceError "currentPage"))
  ∧ (∀ srv p,
       next_onClick (Normal p) srv crowded_state
       = Normal (loadFolder srv crowded_state 1 (OptNumber (p + 1)))
       ∧ requests (loadFolder srv crowded_state 1 (OptNumber (p + 1)))
         = [ {| url := UrlFolderContents 1
                         {| p_folder_page := 1; p_folder_page_size := 50;
                            p_file_page := 1; p_file_page_size := 50 |};
                method := None; credentials := Some Include;
                content_type_json := false; body := None |} ])
  ∧ (∀ st n,
       loadFolder_params st (OptNumber n)
       = {| p_folder_page := folderPage st; p_folder_page_size := 50;
            p_file_page := filePage st; p_file_page_size := 50 |}).
Proof.
  split; [reflexivity|].
  split; [reflexivity|].
  split; [reflexivity|].
  split; [reflexivity|].
  split; [reflexivity|].
  split; [reflexivity|].
  split; [|reflexivity].
  intros srv p. split; [reflexivity|].
  unfold loadFolder.
  destruct (contents srv _); reflexivity.
Qed.

End PaginationFacts.

(** ** App: credentials of the requests *)

Section CredentialFacts.
Import Js Types Http App Fixtures.

(** The request [handleCreateFolder] sends from the root listing. *)
Example create_folder_request_example :
  requests (handleCreateFolder forgetful_server crowded_state (of_string "Docs"))
  = [ {| url := UrlFolders; method := Some POST; credentials := None;
         content_type_json := true;
         body := Some (BodyCreateFolder (of_string "Docs") 1) |};
      loadFolder_request crowded_state 1 OptUndefined ].
Proof. reflexivity. Qed.

(** C8 (where the code departs from it).  The requests that read (folder
    listing, root resolution, dataroom list, search) are sent with
    credentials included; the requests that change the tree (create, rename,
    delete of a folder or file, upload) give no [credentials] option, so the
    fetch default, same-origin, applies to them. *)
Theorem mutating_requests_omit_credentials :
  (∀ st folderId options,
      sends_credentials (loadFolder_request st folderId options) = true)
  ∧ (∀ dataroomId, sends_credentials (loadRoot_request dataroomId) = true)
  ∧ sends_credentials loadDatarooms_request = true
  ∧ (∀ q, sends_credentials (SearchBar.search_request q) = true)
  ∧ (∀ name parent_id,
        sends_credentials (createFolder_request name parent_id) = false
        ∧ effective_credentials (createFolder_request name parent_id) = SameOrigin)
  ∧ (∀ folderId newName,
        sends_credentials (renameFolder_request folderId newName) = false)
  ∧ (∀ folderId, sends_credentials (deleteFolder_request folderId) = false)
  ∧ (∀ folder_id, sends_credentials (upload_request folder_id) = false)
  ∧ (∀ fileId newName,
        sends_credentials (renameFile_request fileId newName) = false)
  ∧ (∀ fileId, sends_credentials (deleteFile_request fileId) = false)
  ∧ (∃ r, head (requests (handleCreateFolder forgetful_server crowded_state
                            (of_string "Docs"))) = Some r
          ∧ sends_credentials r = false).
Proof.
  repeat split.
  eexists. split; reflexivity.
Qed.

End CredentialFacts.

(** ** App: the requests of a trace *)

Section RequestFacts.
Import Js Types Http App.

Lemma requests_fetch_cons (r : Request) (es : list Effect) :
  requests (Fetch r :: es) = r :: requests es.
Proof. reflexivity. Qed.

Lemma requests_app (es1 es2 : list Effect) :
  requests (es1 ++ es2) = requests es1 ++ requests es2.
Proof. apply omap_app. Qed.

(** [loadFolder] sends one request, whatever the answer. *)
Lemma loadFolder_requests (srv : Server) (st : State) (folderId : Z)
    (options : LoadOptions) :
  requests (loadFolder srv st folderId options)
  = [loadFolder_request st folderId options].
Proof.
  unfold loadFolder.
  destruct (contents srv (loadFolder_request st folderId options)); reflexivity.
Qed.


End RequestFacts.

(** ** App: where a delete leaves the user *)

Section DeleteNavigationFacts.
Import Js Types Http App Fixtures.





Example delete_other_folder_reloads :
  handleDeleteFolder forgetful_server (deleting plans)
  = Fetch (deleteFolder_request 5)
    :: loadFolder forgetful_server (deleting plans) 2 OptUndefined.
Proof. reflexivity. Qed.

Example delete_root_view_resolves_root :
  after_delete crowded_state acme = NavRoot.
Proof. reflexivity. Qed.

End DeleteNavigationFacts.

(** ** App: formatBytes *)

Section FormatBytesFacts.
Import Js Types App.

Lemma floor_log1024_nonneg (size : Q) : (1 <= size)%Q → 0 ≤ floor_log1024 size.
Proof.
  intros Hsize. unfold floor_log1024, floor_log2.
  apply Qle_bool_iff in Hsize. rewrite Hsize.
  apply Z.div_pos; [apply Z.log2_nonneg|lia].
Qed.

Example unit_index_2048 : unit_index floor_log1024 (inject_Z 2048) = 1.
Proof. reflexivity. Qed.

Example unit_index_exabyte : unit_index floor_log1024 (inject_Z (2 ^ 60)) = 4.
Proof. reflexivity. Qed.

Example formatBytes_2048 (render_value : Q → Z → string) :
  formatBytes floor_log1024 render_value (inject_Z 2048)
  = (render_value (inject_Z 2048) 1 ++ " KB")%string.
Proof. reflexivity. Qed.

(** The index is clamped from above only.  Below one byte, a size no file
    has, the floored logarithm of 1/2 is -1, [Math.min] leaves it at -1 and
    the lookup [units[-1]] finds nothing; the bounds below are about byte
    counts. *)
Lemma formatBytes_half_byte_out_of_bounds :
  (0 < 1 # 2)%Q
  ∧ unit_index floor_log1024 (1 # 2) = -1
  ∧ Js.index units (unit_index floor_log1024 (1 # 2)) = None
  ∧ formatBytes floor_log1024 (λ _ _, "512"%string) (1 # 2) = "512 undefined"%string.
Proof. repeat split. Qed.

(** From one byte on, the unit is found in the array. *)
Lemma formatBytes_from_one_byte (floor_log_ratio : Q → Z)
    (render_value : Q → Z → string) (size : Q) :
  (1 <= size)%Q → 0 ≤ floor_log_ratio size →
  0 ≤ unit_index floor_log_ratio size ≤ Z.of_nat (length units) - 1
  ∧ ∃ u, Js.index units (unit_index floor_log_ratio size) = Some u
         ∧ u ∈ units
         ∧ formatBytes floor_log_ratio render_value size
           = (render_value size (unit_index floor_log_ratio size)
              ++ " " ++ u)%string.
Proof.
  intros Hsize Hlog.
  assert (Hrange : 0 ≤ unit_index floor_log_ratio size ≤ 4).
  { unfold unit_index. simpl. lia. }
  split; [exact Hrange|].
  unfold formatBytes, unit_text.
  destruct (Qeq_bool size 0) eqn:Hzero.
  { apply Qeq_bool_iff in Hzero. rewrite Hzero in Hsize. by compute in Hsize. }
  unfold Js.index.
  destruct (Z.ltb_spec (unit_index floor_log_ratio size) 0) as [|_]; [lia|].
  destruct (lookup_lt_is_Some_2 units (Z.to_nat (unit_index floor_log_ratio size)))
    as [u Hu]; [simpl; lia|].
  exists u. rewrite Hu.
  split; [reflexivity|]. split; [|reflexivity].
  eapply list_elem_of_lookup_2, Hu.
Qed.

(** C10.  A size is a byte count, as the one caller passes it.  Provided the
    floored logarithm the engine computes is not negative for byte counts
    from 1 on, [formatBytes 0] is "0 B", and for every positive byte count the
    unit index lies between 0 and 4, the lookup in [units] finds one of "B",
    "KB", "MB", "GB", "TB", and that unit ends the result, however large the
    count is. *)
Theorem formatBytes_unit_in_bounds (floor_log_ratio : Q → Z)
    (render_value : Q → Z → string) :
  (∀ n : Z, 1 ≤ n → 0 ≤ floor_log_ratio (inject_Z n)) →
  formatBytes floor_log_ratio render_value (inject_Z 0) = "0 B"%string
  ∧ ∀ n : Z, 0 < n →
      0 ≤ unit_index floor_log_ratio (inject_Z n) ≤ Z.of_nat (length units) - 1
      ∧ ∃ u, Js.index units (unit_index floor_log_ratio (inject_Z n)) = Some u
             ∧ u ∈ units
             ∧ formatBytes floor_log_ratio render_value (inject_Z n)
               = (render_value (inject_Z n)
                    (unit_index floor_log_ratio (inject_Z n))
                  ++ " " ++ u)%string.
Proof.
  intros Hlog. split; [reflexivity|].
  intros n Hpos.
  assert (Hone : (1 <= inject_Z n)%Q).
  { change 1%Q with (inject_Z 1). rewrite <- Zle_Qle. lia. }
  apply formatBytes_from_one_byte; [exact Hone|].
  apply Hlog. lia.
Qed.

Lemma formatBytes_unit_in_bounds_witness :
  formatBytes floor_log1024 (λ _ _, "2.0"%string) (inject_Z 0) = "0 B"%string
  ∧ ∀ n : Z, 0 < n →
      0 ≤ unit_index floor_log1024 (inject_Z n) ≤ Z.of_nat (length units) - 1
      ∧ ∃ u, Js.index units (unit_index floor_log1024 (inject_Z n)) = Some u
             ∧ u ∈ units
             ∧ formatBytes floor_log1024 (λ _ _, "2.0"%string) (inject_Z n)
               = ("2.0" ++ " " ++ u)%string.
Proof.
  apply (formatBytes_unit_in_bounds floor_log1024 (λ _ _, "2.0"%string)).
  intros n Hn. apply floor_log1024_nonneg.
  change 1%Q with (inject_Z 1). rewrite <- Zle_Qle. exact Hn.
Defined.

(** On the file cards the size is an integer byte count: there the unit is
    always one of the five, for every count that is not negative. *)
Lemma file_size_text_unit (floor_log_ratio : Q → Z) (render_value : Q → Z → string)
    (file : FileItem) :
  (∀ size, (1 <= size)%Q → 0 ≤ floor_log_ratio size) →
  0 ≤ fi_size_bytes file →
  file_size_text floor_log_ratio render_value file = "0 B"%string
  ∨ ∃ u, u ∈ units
         ∧ file_size_text floor_log_ratio render_value file
           = (render_value (inject_Z (fi_size_bytes file))
                (unit_index floor_log_ratio (inject_Z (fi_size_bytes file)))
              ++ " " ++ u)%string.
Proof.
  intros Hlog Hsize. unfold file_size_text.
  destruct (Z.eq_dec (fi_size_bytes file) 0) as [->|Hne]; [left; reflexivity|right].
  assert (Hone : (1 <= inject_Z (fi_size_bytes file))%Q).
  { change 1%Q with (inject_Z 1). rewrite <- Zle_Qle. lia. }
  destruct (formatBytes_from_one_byte floor_log_ratio render_value _ Hone
              (Hlog _ Hone)) as (_ & u & _ & Hu & Htext).
  exists u. split; [exact Hu|exact Htext].
Qed.

End FormatBytesFacts.

(** ** App: the breadcrumb navigation *)

Section BreadcrumbNavFacts.
Import Js Types App Fixtures.

Example breadcrumb_nav_example :
  breadcrumb_nav [acme; docs]
  = [ {| crumb_label := of_string "Acme Dataroom"; crumb_target := 1;
         crumb_disabled := false; crumb_separator := true |};
      {| crumb_label := of_string "Project Docs"; crumb_target := 2;
         crumb_disabled := true; crumb_separator := false |} ].
Proof. reflexivity. Qed.


End BreadcrumbNavFacts.

(** ** The storage engine: breadcrumbs *)

Section BreadcrumbFacts.
Import Js TreeEngine.

Lemma path_to_root_functional (r : Repo) x d1 root1 d2 root2 :
  path_to_root r x d1 root1 → path_to_root r x d2 root2 →
  d1 = d2 ∧ root1 = root2.
Proof.
  intros H1. revert d2 root2.
  induction H1 as [x f Hx Hp|x f p d root Hx Hp _ IH]; intros d2 root2 H2.
  - inversion H2; subst; [done|congruence].
  - inversion H2 as [|? f' p' d' ? Hx' Hp' Hrest]; subst; [congruence|].
    assert (p' = p) as -> by congruence.
    destruct (IH _ _ Hrest) as [-> ->]. done.
Qed.







End BreadcrumbFacts.

(** ** The storage engine: folder listings *)

Section ListingFacts.
Import Js TreeEngine.

Lemma length_page_of {A} (page page_size : Z) (l : list A) :
  (length (page_of page page_size l) ≤ Z.to_nat page_size)%nat
  ∧ (length (page_of page page_size l) ≤ length l)%nat.
Proof. unfold page_of. rewrite length_take, length_drop. lia. Qed.

Lemma length_ordered_folders (r : Repo) (folder_id : Z) :
  length (ordered_folders r folder_id) = size (child_folders r folder_id).
Proof.
  unfold ordered_folders.
  rewrite (Permutation_length (merge_sort_Permutation _ _)).
  apply length_map_to_list.
Qed.

Lemma length_ordered_files (r : Repo) (folder_id : Z) :
  length (ordered_files r folder_id) = size (child_files r folder_id).
Proof.
  unfold ordered_files.
  rewrite (Permutation_length (merge_sort_Permutation _ _)).
  apply length_map_to_list.
Qed.

(** C3.  A folder listing the engine returns is an object with exactly the
    eleven members of the [FolderContents] interface; it echoes the folder id
    and the four pagination parameters; [total_folders] and [total_files]
    count all the folders and all the files directly under the folder,
    whatever page was asked for, and a page never holds more entries than its
    page size or than the total. *)
Theorem listing_shape_and_full_totals (render_time : Z → jsstring) (r : Repo)
    (folder_id folder_page folder_page_size file_page file_page_size : Z)
    (c : Types.FolderContents) :
  list_children render_time r folder_id folder_page folder_page_size
                file_page file_page_size = inr c →
  member_names (encode_listing c) = Types.FolderContents_keys
  ∧ Types.id c = folder_id
  ∧ Types.total_folders c = Z.of_nat (size (child_folders r folder_id))
  ∧ Types.total_files c = Z.of_nat (size (child_files r folder_id))
  ∧ Types.folder_page c = folder_page
  ∧ Types.folder_page_size c = folder_page_size
  ∧ Types.file_page c = file_page
  ∧ Types.file_page_size c = file_page_size
  ∧ Z.of_nat (length (Types.folders c)) ≤ Z.min folder_page_size (Types.total_folders c)
  ∧ Z.of_nat (length (Types.files c)) ≤ Z.min file_page_size (Types.total_files c).
Proof.
  unfold list_children.
  destruct (folders r !! folder_id) as [f|]; [|discriminate].
  destruct (_ || _) eqn:Hargs; [discriminate|].
  destruct (breadcrumbs r folder_id) as [|crumbs]; [discriminate|].
  intros [= <-]. simpl.
  rewrite !length_fmap, length_ordered_folders, length_ordered_files.
  pose proof (length_page_of folder_page folder_page_size
                (ordered_folders r folder_id)) as [Hf1 Hf2].
  pose proof (length_page_of file_page file_page_size
                (ordered_files r folder_id)) as [Hl1 Hl2].
  rewrite length_ordered_folders in Hf2. rewrite length_ordered_files in Hl2.
  repeat split; try reflexivity; lia.
Qed.

End ListingFacts.

(** ** The storage engine: cascade delete *)

Section CascadeFacts.
Import Js TreeEngine.

Lemma children_ids_spec (r : Repo) (a c : Z) :
  c ∈ children_ids r a ↔ ∃ f, folders r !! c = Some f ∧ f_parent f = Some a.
Proof.
  unfold children_ids, child_folders. rewrite list_elem_of_fmap. split.
  - intros ([c' f] & -> & Hin). apply elem_of_map_to_list in Hin.
    apply map_lookup_filter_Some in Hin as [Hf Hp]. eauto.
  - intros (f & Hf & Hp). exists (c, f). split; [done|].
    apply elem_of_map_to_list, map_lookup_filter_Some. done.
Qed.

Lemma descends_under_child (r : Repo) (a c : Z) (f : Folder) k x :
  folders r !! c = Some f → f_parent f = Some a →
  descends r c k x → descends r a (S k) x.
Proof.
  intros Hc Hp. induction 1 as [|x fx p k Hx Hpx _ IH].
  - eapply descends_child; [exact Hc|exact Hp|constructor].
  - eapply descends_child; [exact Hx|exact Hpx|exact IH].
Qed.

Lemma descends_top (r : Repo) (a : Z) k x :
  descends r a (S k) x →
  ∃ c f, folders r !! c = Some f ∧ f_parent f = Some a ∧ descends r c k x.
Proof.
  revert x. induction k as [|k IH]; intros x Hx;
    inversion Hx as [|? fx p ? Hfx Hpx Hrest]; subst.
  - inversion Hrest; subst. exists x, fx. repeat split; [done..|constructor].
  - destruct (IH p Hrest) as (c & f & Hc & Hp & Hcp).
    exists c, f. repeat split; [done..|].
    eapply descends_child; eauto.
Qed.

Lemma collect_folders_sound (fuel : nat) (r : Repo) (a x : Z) :
  x ∈ collect_folders fuel r a → in_subtree r a x.
Proof.
  revert a. induction fuel as [|fuel IH]; intros a; simpl.
  - intros Hin. by apply elem_of_nil in Hin.
  - intros [->|Hin]%elem_of_cons.
    + exists O. constructor.
    + apply list_elem_of_In, in_flat_map in Hin as (c & Hc & Hx).
      apply list_elem_of_In, children_ids_spec in Hc as (f & Hf & Hp).
      apply list_elem_of_In, IH in Hx as [k Hk].
      exists (S k). eapply descends_under_child; eauto.
Qed.

Lemma collect_folders_complete (fuel : nat) (r : Repo) (a : Z) k x :
  descends r a k x → (k < fuel)%nat → x ∈ collect_folders fuel r a.
Proof.
  revert a k x. induction fuel as [|fuel IH]; intros a k x Hd Hk; [lia|].
  simpl. destruct k as [|k].
  - inversion Hd; subst. apply elem_of_cons. by left.
  - apply descends_top in Hd as (c & f & Hc & Hp & Hcx).
    apply elem_of_cons. right.
    apply list_elem_of_In, in_flat_map. exists c. split.
    + apply list_elem_of_In, children_ids_spec. eauto.
    + apply list_elem_of_In. eapply IH; [exact Hcx|lia].
Qed.

(** The folders on a finite parent chain are pairwise distinct rows, so a
    folder's depth is below the number of rows. *)
Lemma path_chain_rows (r : Repo) x d root :
  path_to_root r x d root →
  ∃ rows : gset Z,
    size rows = S d ∧ rows ⊆ dom (folders r)
    ∧ ∀ y, y ∈ rows → ∃ dy ry, path_to_root r y dy ry ∧ (dy ≤ d)%nat.
Proof.
  induction 1 as [x f Hx Hp|x f p d root Hx Hp Hpath IH].
  - exists {[x]}. split; [apply size_singleton|]. split.
    + apply singleton_subseteq_l, elem_of_dom. eauto.
    + intros y ->%elem_of_singleton. exists O, x. split; [by econstructor|lia].
  - destruct IH as (rows & Hsize & Hsub & Hdepth).
    assert (Hfresh : x ∉ rows).
    { intros Hin. destruct (Hdepth x Hin) as (dy & ry & Hy & Hle).
      destruct (path_to_root_functional r x (S d) root dy ry) as [<- _];
        [by econstructor|done|lia]. }
    exists ({[x]} ∪ rows). split; [|split].
    + rewrite size_union by set_solver. rewrite size_singleton. lia.
    + apply union_subseteq. split; [|done].
      apply singleton_subseteq_l, elem_of_dom. eauto.
    + intros y [->%elem_of_singleton|Hy]%elem_of_union.
      * exists (S d), root. split; [by econstructor|lia].
      * destruct (Hdepth y Hy) as (dy & ry & Hpy & Hle).
        exists dy, ry. split; [done|lia].
Qed.

Lemma path_depth_lt_size (r : Repo) x d root :
  path_to_root r x d root → (d < size (folders r))%nat.
Proof.
  intros Hpath. destruct (path_chain_rows r x d root Hpath) as (rows & Hsize & Hsub & _).
  apply subseteq_size in Hsub. rewrite size_dom in Hsub. lia.
Qed.

Lemma descends_depth (r : Repo) (a : Z) k x d root :
  descends r a k x → path_to_root r x d root → (k ≤ d)%nat.
Proof.
  intros Hd. revert d. induction Hd as [|x f p k Hx Hp _ IH]; intros d Hpath; [lia|].
  inversion Hpath as [? f' Hx' Hp'|? f' p' d' ? Hx' Hp' Hrest]; subst; [congruence|].
  assert (p' = p) as -> by congruence.
  specialize (IH _ Hrest). lia.
Qed.

(** On a well-formed repository the traversal collects exactly the folder
    and its descendants. *)
Lemma collect_folders_subtree (r : Repo) (a x : Z) :
  well_formed r → is_Some (folders r !! a) →
  x ∈ collect_folders (size (folders r)) r a ↔ in_subtree r a x.
Proof.
  intros Hwf [fa Ha]. split; [apply collect_folders_sound|].
  intros [k Hk]. eapply collect_folders_complete; [exact Hk|].
  assert (∃ fx, folders r !! x = Some fx) as [fx Hx].
  { inversion Hk; subst; eauto. }
  destruct (Hwf x fx Hx) as (d & root & Hpath).
  pose proof (descends_depth r a k x d root Hk Hpath).
  pose proof (path_depth_lt_size r x d root Hpath). lia.
Qed.

Lemma run_ops_result (fails : nat → bool) (k : nat) (r : Repo) (ops : list RowOp) :
  run_ops fails k r ops = None
  ∨ run_ops fails k r ops = Some (foldl apply_op r ops).
Proof.
  revert k r. induction ops as [|op ops IH]; intros k r; simpl.
  - destruct (fails k); auto.
  - destruct (fails k); auto.
Qed.

Lemma run_ops_no_failure (fails : nat → bool) (k : nat) (r : Repo) (ops : list RowOp) :
  (∀ i, fails i = false) →
  run_ops fails k r ops = Some (foldl apply_op r ops).
Proof.
  intros Hok. revert k r. induction ops as [|op ops IH]; intros k r; simpl;
    rewrite Hok; auto.
Qed.

Lemma foldl_folders_None (r : Repo) (ops : list RowOp) x :
  folders r !! x = None → folders (foldl apply_op r ops) !! x = None.
Proof.
  revert r. induction ops as [|op ops IH]; intros r Hx; simpl; [done|].
  apply IH. destruct op; simpl; [done|].
  rewrite lookup_delete_None. by right.
Qed.

Lemma foldl_folders_deleted (r : Repo) (ops : list RowOp) x :
  DeleteFolderRow x ∈ ops → folders (foldl apply_op r ops) !! x = None.
Proof.
  revert r. induction ops as [|op ops IH]; intros r Hin; simpl.
  - by apply elem_of_nil in Hin.
  - apply elem_of_cons in Hin as [<-|Hin]; [|by apply IH].
    apply foldl_folders_None. simpl. apply lookup_delete_eq.
Qed.

Lemma foldl_folders_kept (r : Repo) (ops : list RowOp) x :
  DeleteFolderRow x ∉ ops → folders (foldl apply_op r ops) !! x = folders r !! x.
Proof.
  revert r. induction ops as [|op ops IH]; intros r Hin; simpl; [done|].
  apply not_elem_of_cons in Hin as [Hne Hin].
  rewrite IH by done. destruct op as [i|i]; simpl; [done|].
  apply lookup_delete_ne. congruence.
Qed.

Lemma foldl_files_None (r : Repo) (ops : list RowOp) i :
  files r !! i = None → files (foldl apply_op r ops) !! i = None.
Proof.
  revert r. induction ops as [|op ops IH]; intros r Hx; simpl; [done|].
  apply IH. destruct op; simpl; [|done].
  rewrite lookup_delete_None. by right.
Qed.

Lemma foldl_files_deleted (r : Repo) (ops : list RowOp) i :
  DeleteFileRow i ∈ ops → files (foldl apply_op r ops) !! i = None.
Proof.
  revert r. induction ops as [|op ops IH]; intros r Hin; simpl.
  - by apply elem_of_nil in Hin.
  - apply elem_of_cons in Hin as [<-|Hin]; [|by apply IH].
    apply foldl_files_None. simpl. apply lookup_delete_eq.
Qed.

Lemma foldl_files_kept (r : Repo) (ops : list RowOp) i :
  DeleteFileRow i ∉ ops → files (foldl apply_op r ops) !! i = files r !! i.
Proof.
  revert r. induction ops as [|op ops IH]; intros r Hin; simpl; [done|].
  apply not_elem_of_cons in Hin as [Hne Hin].
  rewrite IH by done. destruct op as [j|j]; simpl; [|done].
  apply lookup_delete_ne. congruence.
Qed.

Lemma cascade_ops_folder (r : Repo) (a x : Z) :
  DeleteFolderRow x ∈ cascade_ops r a
  ↔ x ∈ collect_folders (size (folders r)) r a.
Proof.
  unfold cascade_ops. rewrite elem_of_app, !list_elem_of_fmap. split.
  - intros [(i & Hi & _)|(y & [= ->] & Hy)]; [discriminate|].
    by rewrite elem_of_reverse in Hy.
  - intros Hx. right. exists x. split; [done|]. by rewrite elem_of_reverse.
Qed.

Lemma cascade_ops_file (r : Repo) (a i : Z) :
  DeleteFileRow i ∈ cascade_ops r a
  ↔ ∃ fl, files r !! i = Some fl
          ∧ file_folder fl ∈ collect_folders (size (folders r)) r a.
Proof.
  unfold cascade_ops, collect_files.
  rewrite elem_of_app, !list_elem_of_fmap. split.
  - intros [(j & [= ->] & Hj)|(y & Hy & _)]; [|discriminate].
    apply list_elem_of_fmap in Hj as ([j' fl] & -> & Hin).
    apply elem_of_map_to_list, map_lookup_filter_Some in Hin as [Hfl Hfolder].
    eauto.
  - intros (fl & Hfl & Hfolder). left. exists i. split; [done|].
    apply list_elem_of_fmap. exists (i, fl). split; [done|].
    apply elem_of_map_to_list, map_lookup_filter_Some. done.
Qed.

(** A cascade delete that commits removes the subtree, all of it and nothing
    more. *)
Lemma cascade_commit_removes_subtree (r : Repo) (a : Z) :
  well_formed r → is_Some (folders r !! a) →
  subtree_removed r a (foldl apply_op r (cascade_ops r a)).
Proof.
  intros Hwf Ha. repeat split.
  - intros x Hx. apply foldl_folders_deleted, cascade_ops_folder.
    by apply collect_folders_subtree.
  - intros x Hx. apply foldl_folders_kept.
    rewrite cascade_ops_folder, collect_folders_subtree by done. done.
  - intros i fl Hfl Hin. apply foldl_files_deleted, cascade_ops_file.
    exists fl. split; [done|]. by apply collect_folders_subtree.
  - intros i fl Hfl Hout. rewrite foldl_files_kept; [done|].
    rewrite cascade_ops_file. intros (fl' & Hfl' & Hin).
    assert (fl' = fl) as -> by congruence.
    by apply collect_folders_subtree in Hin.
  - intros i Hi. by apply foldl_files_None.
Qed.

End CascadeFacts.

Section CascadeTheorem.
Import Js TreeEngine RepoFixtures.

Lemma sample_repo_well_formed : well_formed sample_repo.
Proof.
  assert (H1 : path_to_root sample_repo 1 0 1) by (by econstructor).
  assert (H2 : path_to_root sample_repo 2 1 1)
    by (eapply path_up; [reflexivity|reflexivity|exact H1]).
  intros x f Hx. simpl in Hx.
  rewrite !lookup_insert_Some, lookup_empty in Hx.
  destruct Hx as [[<- _]|[_ [[<- _]|[_ [[<- _]|[_ [[<- _]|[_ ?]]]]]]]]; [..|done].
  - eauto.
  - eauto.
  - exists 2%nat, 1. eapply path_up; [reflexivity|reflexivity|exact H2].
  - exists 1%nat, 1. eapply path_up; [reflexivity|reflexivity|exact H1].
Qed.

Example breadcrumbs_B :
  match breadcrumbs sample_repo 3 with
  | inr crumbs => s_id <$> crumbs
  | inl _ => []
  end = [1; 2; 3].
Proof. vm_compute. reflexivity. Qed.

Example delete_A_commits :
  let result := delete_folder (λ _, false) (λ _, false) sample_repo sample_blobs 2 in
  result.2 = inr tt
  ∧ dom (folders result.1.1) = {[1; 4]}
  ∧ dom (files result.1.1) = {[11]}
  ∧ result.1.2 = {[901]}.
Proof. vm_compute. repeat split. Qed.

Example delete_A_fails_midway :
  let result := delete_folder (λ k, Nat.eqb k 2) (λ _, false) sample_repo sample_blobs 2 in
  result.2 = inl StorageFailure
  ∧ result.1.1 = sample_repo
  ∧ result.1.2 = {[901]}.
Proof. vm_compute. repeat split. Qed.

(** C2.  On a well-formed repository, whatever step of the metadata
    transaction fails (if any), a folder delete ends in one of two ways: it
    succeeds and the rows of the folder, of every descendant folder and of
    every file in them are gone while every other row is as before; or it
    reports an error and the repository is exactly as before. *)
Theorem cascade_delete_all_or_nothing (fails : nat → bool) (blob_fails : Z → bool)
    (r : Repo) (blobs : gset Z) (folder_id : Z) :
  well_formed r →
  ((delete_folder fails blob_fails r blobs folder_id).2 = inr tt
   ∧ subtree_removed r folder_id
       (delete_folder fails blob_fails r blobs folder_id).1.1)
  ∨ (∃ e, (delete_folder fails blob_fails r blobs folder_id).2 = inl e
          ∧ (delete_folder fails blob_fails r blobs folder_id).1.1 = r).
Proof.
  intros Hwf. unfold delete_folder.
  destruct (folders r !! folder_id) as [f|] eqn:Hf; [|right; eauto].
  destruct (f_parent f) as [p|]; [|right; eauto].
  unfold transaction.
  destruct (run_ops_result fails O r (cascade_ops r folder_id)) as [-> | ->];
    simpl; [right; eauto|left].
  split; [reflexivity|].
  apply cascade_commit_removes_subtree; eauto.
Qed.

Lemma cascade_delete_all_or_nothing_witness :
  ((delete_folder (λ k, Nat.eqb k 2) (λ _, false) sample_repo sample_blobs 2).2 = inr tt
   ∧ subtree_removed sample_repo 2
       (delete_folder (λ k, Nat.eqb k 2) (λ _, false) sample_repo sample_blobs 2).1.1)
  ∨ (∃ e, (delete_folder (λ k, Nat.eqb k 2) (λ _, false) sample_repo sample_blobs 2).2
          = inl e
          ∧ (delete_folder (λ k, Nat.eqb k 2) (λ _, false) sample_repo sample_blobs 2).1.1
            = sample_repo).
Proof.
  apply (cascade_delete_all_or_nothing (λ k, Nat.eqb k 2) (λ _, false)
           sample_repo sample_blobs 2).
  exact sample_repo_well_formed.
Defined.

(** With a repository that does not fail, deleting a folder that exists and
    is not a root succeeds. *)
Lemma cascade_delete_succeeds (blob_fails : Z → bool) (r : Repo) (blobs : gset Z)
    (folder_id : Z) (f : Folder) (p : Z) :
  folders r !! folder_id = Some f → f_parent f = Some p →
  (delete_folder (λ _, false) blob_fails r blobs folder_id).2 = inr tt.
Proof.
  intros Hf Hp. unfold delete_folder, transaction. rewrite Hf, Hp.
  by rewrite run_ops_no_failure.
Qed.

End CascadeTheorem.

(** ** The storage engine on the scenario of the specification *)

Section ScenarioFacts.
Import Js TreeEngine RepoFixtures.



(** The root holds two folders, ordered C (created at 105) then A (110): with
    a page size of 1 each page shows one of them and both report 2. *)
Example list_children_pages :
  match list_children sample_time sample_repo 1 1 1 1 1,
        list_children sample_time sample_repo 1 2 1 1 1 with
  | inr first, inr second =>
      Types.fs_id <$> Types.folders first = [4]
      ∧ Types.fs_id <$> Types.folders second = [2]
      ∧ Types.total_folders first = 2
      ∧ Types.total_folders second = 2
  | _, _ => False
  end.
Proof. vm_compute. repeat split. Qed.

Example list_children_missing_folder :
  list_children sample_time sample_repo 7 1 50 1 50 = inl NotFound.
Proof. reflexivity. Qed.

Example list_children_bad_page :
  list_children sample_time sample_repo 1 0 50 1 50 = inl InvalidArgument.
Proof. reflexivity. Qed.

Lemma listing_shape_and_full_totals_witness :
  ∃ c,
    list_children sample_time sample_repo 1 1 1 1 1 = inr c
    ∧ member_names (encode_listing c) = Types.FolderContents_keys
    ∧ Types.total_folders c = 2
    ∧ Types.total_files c = 1.
Proof.
  destruct (list_children sample_time sample_repo 1 1 1 1 1) as [e|c] eqn:Hc;
    [vm_compute in Hc; discriminate|].
  exists c. split; [reflexivity|].
  destruct (listing_shape_and_full_totals sample_time sample_repo 1 1 1 1 1 c Hc)
    as (Hnames & _ & Hfolders & Hfiles & _).
  split; [exact Hnames|]. rewrite Hfolders, Hfiles.
  split; vm_compute; reflexivity.
Defined.

End ScenarioFacts.

(** ** More on String.prototype.trim *)

Section TrimMoreFacts.
Import Js.

Lemma trimStart_app_visible (s t : jsstring) :
  whitespace_only s = false → trimStart (s ++ t) = trimStart s ++ t.
Proof.
  induction s as [|c s IH]; simpl; [discriminate|].
  destruct (is_trimmed_char c); simpl; [exact IH|reflexivity].
Qed.

(** Whitespace after the last visible character does not change what [trim]
    returns. *)
Lemma trim_app_whitespace (s : jsstring) (w : code_unit) :
  is_trimmed_char w = true → whitespace_only s = false →
  trim (s ++ [w]) = trim s.
Proof.
  intros Hw Hs. unfold trim, trimEnd.
  rewrite trimStart_app_visible by exact Hs.
  rewrite rev_app_distr. simpl. now rewrite Hw.
Qed.

End TrimMoreFacts.

(** ** The search bar: outcomes and the dropdown *)

Section SearchOutcomeFacts.
Import Js Types Http SearchBar SearchBarView.

(** X1.  A query with a visible character is recorded, and [isSearching]
    ends false.  If the query is well formed it is sent once, as typed: an ok
    answer becomes the results, while an answer that is not ok or a thrown
    request leaves the results shown before as they were.  If it holds an
    unpaired surrogate, building the URL throws: nothing is sent, the error
    is logged and the results stay as they were. *)
Theorem search_outcome_decides_results (response : Outcome SearchResults)
    (st : State) (searchQuery : jsstring) :
  whitespace_only searchQuery = false →
  query (run st (handleSearch response searchQuery)) = searchQuery
  ∧ isSearching (run st (handleSearch response searchQuery)) = false
  ∧ (well_formed searchQuery = true →
       requests (handleSearch response searchQuery) = [search_request searchQuery]
       ∧ results (run st (handleSearch response searchQuery))
         = match response with
           | Ok data => Some data
           | NotOk _ | Threw _ => results st
           end)
  ∧ (well_formed searchQuery = false →
       requests (handleSearch response searchQuery) = []
       ∧ ConsoleError ∈ handleSearch response searchQuery
       ∧ results (run st (handleSearch response searchQuery)) = results st).
Proof.
  intros Hq. unfold handleSearch. rewrite truthy_trim, Hq. simpl.
  destruct (well_formed searchQuery); simpl.
  - destruct response; (do 2 (split; [reflexivity|])); (split; [|discriminate]);
      intros _; split; reflexivity.
  - do 2 (split; [reflexivity|]). split; [discriminate|].
    intros _. split; [reflexivity|]. split; [|reflexivity].
    apply list_elem_of_In. simpl. tauto.
Qed.

(** X2.  While the request of a well-formed query with a visible character
    is pending, [isSearching] is true, but the dropdown shows "Searching..."
    only if results were held before; with no earlier results it shows
    nothing. *)
Theorem searching_indicator_needs_earlier_results
    (response : Outcome SearchResults) (st : State) (searchQuery : jsstring) :
  whitespace_only searchQuery = false →
  well_formed searchQuery = true →
  requests (handleSearch response searchQuery) = [search_request searchQuery]
  ∧ isSearching (pending st response searchQuery) = true
  ∧ query (pending st response searchQuery) = searchQuery
  ∧ dropdown (pending st response searchQuery)
    = match results st with
      | Some _ => Searching
      | None => Hidden
      end.
Proof.
  intros Hq Hwf. unfold pending, handleSearch. rewrite truthy_trim, Hq, Hwf. simpl.
  unfold dropdown. simpl.
  destruct (results st); destruct response; repeat split.
Qed.

End SearchOutcomeFacts.

(** ** The sign-in and registration forms *)

Section FormFacts.
Import Js.

(** X3.  The registration form calls [register] only for a password that
    equals its confirmation and has at least 6 code units, once, with the
    email and password as typed; it then ends with [loading] false and the
    error of the rejection, if any.  A mismatch is reported first, then a
    short password; in both cases [register] is not called and [loading] is
    left as it was. *)
Theorem register_validates_before_calling (outcome : LoginForm.AuthOutcome)
    (s : RegisterForm.State) :
  (RegisterForm.password s ≠ RegisterForm.confirmPassword s
   ∧ RegisterForm.registrations (RegisterForm.handleSubmit outcome s) = []
   ∧ RegisterForm.error (RegisterForm.run s (RegisterForm.handleSubmit outcome s))
     = of_string "Passwords do not match"
   ∧ RegisterForm.loading (RegisterForm.run s (RegisterForm.handleSubmit outcome s))
     = RegisterForm.loading s)
  ∨ (RegisterForm.password s = RegisterForm.confirmPassword s
     ∧ (length (RegisterForm.password s) < 6)%nat
     ∧ RegisterForm.registrations (RegisterForm.handleSubmit outcome s) = []
     ∧ RegisterForm.error (RegisterForm.run s (RegisterForm.handleSubmit outcome s))
       = of_string "Password must be at least 6 characters"
     ∧ RegisterForm.loading (RegisterForm.run s (RegisterForm.handleSubmit outcome s))
       = RegisterForm.loading s)
  ∨ (RegisterForm.password s = RegisterForm.confirmPassword s
     ∧ (6 ≤ length (RegisterForm.password s))%nat
     ∧ RegisterForm.registrations (RegisterForm.handleSubmit outcome s)
       = [(RegisterForm.email s, RegisterForm.password s)]
     ∧ RegisterForm.error (RegisterForm.run s (RegisterForm.handleSubmit outcome s))
       = match outcome with
         | LoginForm.Resolved => []
         | LoginForm.Rejected m => default (of_string "Registration failed") m
         end
     ∧ RegisterForm.loading (RegisterForm.run s (RegisterForm.handleSubmit outcome s))
       = false).
Proof.
  unfold RegisterForm.handleSubmit, strict_eq.
  case_bool_decide as Heq; simpl.
  - destruct (Z.ltb_spec (Z.of_nat (length (RegisterForm.password s))) 6) as [Hlt|Hge].
    + right. left. repeat split; [exact Heq|lia].
    + right. right. destruct outcome; repeat split; solve [exact Heq|lia].
  - left. repeat split. exact Heq.
Qed.

(** X4.  The sign-in form checks nothing itself: every submit calls [login]
    once with the email and password as typed, and ends with [loading] false
    and with the error of the rejection ("Login failed" when the thrown value
    is no [Error]); no error is shown exactly when [login] resolved or
    rejected with an empty message. *)
Theorem login_submits_fields_unchecked (outcome : LoginForm.AuthOutcome)
    (s : LoginForm.State) :
  LoginForm.logins (LoginForm.handleSubmit outcome s)
  = [(LoginForm.email s, LoginForm.password s)]
  ∧ LoginForm.loading (LoginForm.run s (LoginForm.handleSubmit outcome s)) = false
  ∧ LoginForm.error (LoginForm.run s (LoginForm.handleSubmit outcome s))
    = match outcome with
      | LoginForm.Resolved => []
      | LoginForm.Rejected m => default (of_string "Login failed") m
      end
  ∧ (LoginForm.error_shown (LoginForm.run s (LoginForm.handleSubmit outcome s)) = false
     ↔ outcome = LoginForm.Resolved ∨ outcome = LoginForm.Rejected (Some [])).
Proof.
  unfold LoginForm.handleSubmit, LoginForm.error_shown.
  destruct outcome as [|[m|]]; simpl; repeat split; auto.
  - destruct m; [tauto|discriminate].
  - intros [|[= ->]]; [discriminate|reflexivity].
  - discriminate.
  - intros [|]; discriminate.
Qed.

End FormFacts.

(** ** The rename dialog: what the same-name guard compares *)

Section RenameGuardFacts.
Import Js RenameDialog.

(** X5.  The same-name guard of the rename dialog compares the input as
    typed, the confirmed name is the trimmed one: the current name followed
    by one whitespace character passes the guard (the button is enabled) and
    [onConfirm] receives the trimmed current name, while the current name
    itself is not submitted. *)
Theorem rename_guard_compares_untrimmed_input (currentName : jsstring)
    (w : code_unit) :
  is_trimmed_char w = true →
  whitespace_only currentName = false →
  handleSubmit (currentName ++ [w]) currentName
  = [PreventDefault; OnConfirm (trim currentName); OnOpenChange false]
  ∧ submit_disabled (currentName ++ [w]) currentName = false
  ∧ handleSubmit currentName currentName = [PreventDefault].
Proof.
  intros Hw Hvisible.
  assert (Hne : currentName ++ [w] ≠ currentName).
  { intros Heq. apply (f_equal length) in Heq. rewrite length_app in Heq.
    simpl in Heq. lia. }
  unfold handleSubmit, submit_disabled, strict_eq.
  rewrite trim_app_whitespace by done.
  rewrite !truthy_trim, Hvisible.
  rewrite bool_decide_eq_false_2 by exact Hne.
  rewrite bool_decide_eq_true_2 by reflexivity.
  repeat split.
Qed.

Lemma rename_guard_compares_untrimmed_input_witness :
  handleSubmit (of_string "Plan ") (of_string "Plan")
  = [PreventDefault; OnConfirm (of_string "Plan"); OnOpenChange false]
  ∧ submit_disabled (of_string "Plan ") (of_string "Plan") = false
  ∧ handleSubmit (of_string "Plan") (of_string "Plan") = [PreventDefault].
Proof.
  exact (rename_guard_compares_untrimmed_input (of_string "Plan") 32%N
           eq_refl eq_refl).
Defined.

End RenameGuardFacts.

(** ** App: loading a folder and resolving the root *)

Section LoadFacts.
Import Js Types Http App AppWiring.

(** X8.  [loadFolder] never leaves the component loading, and touches
    neither the datarooms nor the dialogs.  On an ok answer the next render
    holds the listing and the two cursors the listing reports, and shows it;
    on any failure it keeps the folder and the cursors it had and records the
    error, and an answer that is not ok hides the folder behind the error. *)
Theorem load_folder_settles_state (srv : Server) (st : State) (folderId : Z)
    (options : LoadOptions) :
  loading (state (run st (loadFolder srv st folderId options))) = false
  ∧ datarooms (run st (loadFolder srv st folderId options)) = datarooms st
  ∧ dialogs (run st (loadFolder srv st folderId options)) = dialogs st
  ∧ match contents srv (loadFolder_request st folderId options) with
    | Ok data =>
        currentFolder (run st (loadFolder srv st folderId options)) = Some data
        ∧ folderPage (run st (loadFolder srv st folderId options)) = folder_page data
        ∧ filePage (run st (loadFolder srv st folderId options)) = file_page data
        ∧ error (state (run st (loadFolder srv st folderId options))) = None
        ∧ folder_panel (main_view (run st (loadFolder srv st folderId options)))
          = Some data
    | NotOk status =>
        currentFolder (run st (loadFolder srv st folderId options)) = currentFolder st
        ∧ folderPage (run st (loadFolder srv st folderId options)) = folderPage st
        ∧ filePage (run st (loadFolder srv st folderId options)) = filePage st
        ∧ error (state (run st (loadFolder srv st folderId options)))
          = Some (MsgUnableToLoadFolder status)
        ∧ folder_panel (main_view (run st (loadFolder srv st folderId options)))
          = None
    | Threw m =>
        currentFolder (run st (loadFolder srv st folderId options)) = currentFolder st
        ∧ folderPage (run st (loadFolder srv st folderId options)) = folderPage st
        ∧ filePage (run st (loadFolder srv st folderId options)) = filePage st
        ∧ error (state (run st (loadFolder srv st folderId options)))
          = Some (message_of m)
    end.
Proof.
  unfold loadFolder.
  destruct (contents srv (loadFolder_request st folderId options));
    repeat split.
Qed.

(** X9.  [loadRoot] never leaves the component loading.  When the root
    resolves, exactly two requests are sent: the root request, then the
    contents of the root at page 1 of folders and page 1 of files, whatever
    cursors the state held.  When it does not, only the root request is sent,
    the folder and cursors stay and an error is recorded.  On mount the root
    is asked for without a dataroom id. *)
Theorem load_root_asks_first_pages (srv : Server) (st : State)
    (dataroomId : option Z) :
  loading (state (run st (loadRoot srv st dataroomId))) = false
  ∧ match root srv (loadRoot_request dataroomId) with
    | Ok r =>
        requests (loadRoot srv st dataroomId)
        = [ loadRoot_request dataroomId;
            {| url := UrlFolderContents (fs_id r)
                        {| p_folder_page := 1; p_folder_page_size := 50;
                           p_file_page := 1; p_file_page_size := 50 |};
               method := None; credentials := Some Include;
               content_type_json := false; body := None |} ]
    | NotOk _ | Threw _ =>
        requests (loadRoot srv st dataroomId) = [loadRoot_request dataroomId]
        ∧ currentFolder (run st (loadRoot srv st dataroomId)) = currentFolder st
        ∧ folderPage (run st (loadRoot srv st dataroomId)) = folderPage st
        ∧ filePage (run st (loadRoot srv st dataroomId)) = filePage st
        ∧ is_Some (error (state (run st (loadRoot srv st dataroomId))))
    end
  ∧ head (requests (on_mount srv st))
    = Some {| url := UrlFoldersRoot None; method := None;
              credentials := Some Include; content_type_json := false;
              body := None |}.
Proof.
  unfold on_mount, loadRoot.
  destruct (root srv (loadRoot_request dataroomId)) as [m|status|r];
    destruct (root srv (loadRoot_request None)) as [m'|status'|r'];
    simpl; unfold loadFolder;
    repeat match goal with
           | |- context [contents srv ?q] => destruct (contents srv q)
           end;
    repeat split; eauto.
Qed.

(** X10.  After a listing arrived, a click on a folder card, on a
    breadcrumb or on a search result asks for the clicked folder at the folder
    page and file page that listing reported: the cursors are carried from
    one folder to the next. *)
Theorem navigation_carries_cursors (srv : Server) (st : State) (folderId : Z)
    (options : LoadOptions) (data : FolderContents) (target : FolderSummary) :
  contents srv (loadFolder_request st folderId options) = Ok data →
  requests (folder_card_onClick srv (run st (loadFolder srv st folderId options)) target)
  = [ {| url := UrlFolderContents (fs_id target)
                  {| p_folder_page := folder_page data; p_folder_page_size := 50;
                     p_file_page := file_page data; p_file_page_size := 50 |};
         method := None; credentials := Some Include;
         content_type_json := false; body := None |} ]
  ∧ requests (crumb_onClick srv (run st (loadFolder srv st folderId options)) target)
    = requests (folder_card_onClick srv (run st (loadFolder srv st folderId options)) target)
  ∧ requests (search_onFolderClick srv (run st (loadFolder srv st folderId options))
                (fs_id target))
    = requests (folder_card_onClick srv (run st (loadFolder srv st folderId options)) target).
Proof.
  intros Hok.
  unfold folder_card_onClick, crumb_onClick, search_onFolderClick.
  rewrite !loadFolder_requests.
  unfold loadFolder_request, loadFolder_params, loadFolder. rewrite Hok. simpl.
  repeat split.
Qed.

End LoadFacts.

(** ** App: what follows a change of the tree *)

Section MutationFacts.
Import Js Types Http App.

(** X11.  When the server accepts no change, each of the six handlers that
    change the tree (create, rename and delete of a folder, upload, rename and
    delete of a file) leaves the state of the component exactly as it was,
    sends at most one request (no reload), and, unless it did nothing at all,
    raises an alert. *)
Theorem refused_mutation_changes_nothing (srv : Server) (st : State)
    (name : jsstring) (picked : bool) :
  (∀ r u, mutate srv r ≠ Ok u) →
  ∀ es,
    es ∈ [handleCreateFolder srv st name; handleRenameFolder srv st name;
          handleDeleteFolder srv st; handleUploadFile srv st picked;
          handleRenameFile srv st name; handleDeleteFile srv st] →
    run st es = st
    ∧ (length (requests es) ≤ 1)%nat
    ∧ (es = [] ∨ ∃ m, Alert m ∈ es).
Proof.
  intros Hrefuse es Hes.
  assert (Hcase : ∀ r, (∃ m, mutate srv r = Threw m) ∨ (∃ c, mutate srv r = NotOk c)).
  { intros r. destruct (mutate srv r) as [m|c|u] eqn:Hr; eauto.
    by destruct (Hrefuse r u). }
  repeat (apply elem_of_cons in Hes as [->|Hes]); [..|by apply elem_of_nil in Hes].
  - unfold handleCreateFolder. destruct (currentFolder st) as [cf|]; [|by auto].
    destruct (Hcase (createFolder_request name (id cf))) as [[m ->]|[c ->]];
      (split; [reflexivity|split; [simpl; lia|right; eexists; apply list_elem_of_In; simpl; eauto]]).
  - unfold handleRenameFolder.
    destruct (fd_folder (renameFolder (dialogs st))) as [f|]; [|by auto].
    destruct (Hcase (renameFolder_request (fs_id f) name)) as [[m ->]|[c ->]];
      (split; [reflexivity|split; [simpl; lia|right; eexists; apply list_elem_of_In; simpl; eauto]]).
  - unfold handleDeleteFolder.
    destruct (fd_folder (deleteFolder (dialogs st))) as [f|]; [|by auto].
    destruct (Hcase (deleteFolder_request (fs_id f))) as [[m ->]|[c ->]];
      (split; [reflexivity|split; [simpl; lia|right; eexists; apply list_elem_of_In; simpl; eauto]]).
  - unfold handleUploadFile. destruct (currentFolder st) as [cf|]; [|by auto].
    destruct picked; simpl; [|by auto].
    destruct (Hcase (upload_request (id cf))) as [[m ->]|[c ->]];
      (split; [reflexivity|split; [simpl; lia|right; eexists; apply list_elem_of_In; simpl; eauto]]).
  - unfold handleRenameFile.
    destruct (fl_file (renameFile (dialogs st))) as [f|]; [|by auto].
    destruct (Hcase (renameFile_request (fi_id f) name)) as [[m ->]|[c ->]];
      (split; [reflexivity|split; [simpl; lia|right; eexists; apply list_elem_of_In; simpl; eauto]]).
  - unfold handleDeleteFile.
    destruct (fl_file (deleteFile (dialogs st))) as [f|]; [|by auto].
    destruct (Hcase (deleteFile_request (fi_id f))) as [[m ->]|[c ->]];
      (split; [reflexivity|split; [simpl; lia|right; eexists; apply list_elem_of_In; simpl; eauto]]).
Qed.

(** X12.  With a folder on screen and a server that accepts the change,
    create, upload, rename of a folder, rename of a file and delete of a file
    each send exactly two requests: the change, then a reload of the folder
    on screen (also when the renamed folder is another one) at the cursors
    held. *)
Theorem accepted_mutation_reloads_folder_on_screen (srv : Server) (st : State)
    (cf : FolderContents) (name : jsstring) :
  currentFolder st = Some cf →
  (∀ r, mutate srv r = Ok tt) →
  requests (handleCreateFolder srv st name)
  = [createFolder_request name (id cf); loadFolder_request st (id cf) OptUndefined]
  ∧ requests (handleUploadFile srv st true)
    = [upload_request (id cf); loadFolder_request st (id cf) OptUndefined]
  ∧ (∀ folder, fd_folder (renameFolder (dialogs st)) = Some folder →
       requests (handleRenameFolder srv st name)
       = [renameFolder_request (fs_id folder) name;
          loadFolder_request st (id cf) OptUndefined])
  ∧ (∀ file, fl_file (renameFile (dialogs st)) = Some file →
       requests (handleRenameFile srv st name)
       = [renameFile_request (fi_id file) name;
          loadFolder_request st (id cf) OptUndefined])
  ∧ (∀ file, fl_file (deleteFile (dialogs st)) = Some file →
       requests (handleDeleteFile srv st)
       = [deleteFile_request (fi_id file);
          loadFolder_request st (id cf) OptUndefined])
  ∧ p_folder_page (loadFolder_params st OptUndefined) = folderPage st
  ∧ p_file_page (loadFolder_params st OptUndefined) = filePage st.
Proof.
  intros Hcf Hok.
  split; [|split; [|split; [|split; [|split; [|split]]]]]; try reflexivity.
  - unfold handleCreateFolder. rewrite Hcf, Hok.
    by rewrite requests_fetch_cons, loadFolder_requests.
  - unfold handleUploadFile. rewrite Hcf, Hok. cbn [negb].
    by rewrite requests_fetch_cons, requests_app, loadFolder_requests.
  - intros folder Hf. unfold handleRenameFolder. rewrite Hf, Hok, Hcf.
    rewrite requests_fetch_cons.
    destruct (id cf =? fs_id folder) eqn:Heq; rewrite loadFolder_requests; [|done].
    apply Z.eqb_eq in Heq. by rewrite Heq.
  - intros file Hf. unfold handleRenameFile. rewrite Hf, Hok, Hcf.
    by rewrite requests_fetch_cons, loadFolder_requests.
  - intros file Hf. unfold handleDeleteFile. rewrite Hf, Hok, Hcf.
    by rewrite requests_fetch_cons, loadFolder_requests.
Qed.

Lemma alerts_fetch_cons (r : Request) (es : list Effect) :
  AppWiring.alerts (Fetch r :: es) = AppWiring.alerts es.
Proof. reflexivity. Qed.

Lemma alerts_app (es1 es2 : list Effect) :
  AppWiring.alerts (es1 ++ es2) = AppWiring.alerts es1 ++ AppWiring.alerts es2.
Proof. apply omap_app. Qed.

Lemma loadFolder_alerts (srv : Server) (st : State) (folderId : Z)
    (options : LoadOptions) :
  AppWiring.alerts (loadFolder srv st folderId options) = [].
Proof.
  unfold loadFolder.
  destruct (contents srv (loadFolder_request st folderId options)); reflexivity.
Qed.

(** X13.  [handleUploadFile] does nothing at all exactly when no folder is
    on screen or no file was picked.  Otherwise its first request is the
    upload for the folder on screen, followed by one reload of that folder at
    the cursors held if the upload was accepted and by no request if not; it
    alerts once, with the server's detail or "Failed to upload file" on an
    answer that is not ok and with the thrown message on a throw, and not at
    all on success; and its last effect is the clearing of the file input. *)
Theorem upload_clears_input_after_every_attempt (srv : Server) (st : State)
    (picked : bool) :
  (handleUploadFile srv st picked = []
   ↔ currentFolder st = None ∨ picked = false)
  ∧ (handleUploadFile srv st picked ≠ [] →
     last (handleUploadFile srv st picked) = Some ClearFileInput)
  ∧ (∀ cf, currentFolder st = Some cf → picked = true →
       requests (handleUploadFile srv st picked)
       = upload_request (id cf)
         :: match mutate srv (upload_request (id cf)) with
            | Ok _ =>
                [ {| url := UrlFolderContents (id cf)
                              {| p_folder_page := folderPage st;
                                 p_folder_page_size := 50;
                                 p_file_page := filePage st;
                                 p_file_page_size := 50 |};
                     method := None; credentials := Some Include;
                     content_type_json := false; body := None |} ]
            | NotOk _ | Threw _ => []
            end
       ∧ AppWiring.alerts (handleUploadFile srv st picked)
         = match mutate srv (upload_request (id cf)) with
           | Ok _ => []
           | NotOk _ =>
               [MsgText (default "Failed to upload file"%string
                           (upload_detail srv (upload_request (id cf))))]
           | Threw m => [message_of m]
           end).
Proof.
  unfold handleUploadFile.
  destruct (currentFolder st) as [cf|].
  2:{ split; [split; auto|]. split; [done|]. intros cf [=]. }
  destruct picked; cbn [negb].
  2:{ split; [split; auto|]. split; [done|]. intros cf' _ [=]. }
  split; [|split].
  - split; [discriminate|]. intros [|]; discriminate.
  - intros _.
    change (Fetch (upload_request (id cf)) :: ?m ++ [ClearFileInput])
      with ((Fetch (upload_request (id cf)) :: m) ++ [ClearFileInput]).
    apply last_snoc.
  - intros cf' [= <-] _.
    destruct (mutate srv (upload_request (id cf))); [split; reflexivity..|].
    rewrite requests_fetch_cons, requests_app, loadFolder_requests.
    rewrite alerts_fetch_cons, alerts_app, loadFolder_alerts.
    split; reflexivity.
Qed.

End MutationFacts.

(** ** App: the dialogs as wired *)

Section WiringFacts.
Import Js Types Http App AppWiring.

(** X6.  The create dialog as App wires it.  A blank input does nothing.
    Otherwise, with a folder on screen, the POST for a folder named by the
    trimmed input under the folder on screen is issued first, then the input
    is cleared and the dialog closed, then the answer is handled (reload,
    or alert); with no folder on screen nothing is sent. *)
Theorem submit_create_posts_trimmed_name (srv : Server) (st : State)
    (name : jsstring) :
  (whitespace_only name = true ∧ submit_create srv st name = [])
  ∨ (whitespace_only name = false
     ∧ match currentFolder st with
       | Some cf =>
           ∃ after,
             submit_create srv st name
             = AppEffect (Fetch (createFolder_request (trim name) (id cf)))
               :: SetDialogName []
               :: SetDialogs (createFolder_onOpenChange st false)
               :: map AppEffect after
             ∧ match mutate srv (createFolder_request (trim name) (id cf)) with
               | Ok _ => after = loadFolder srv st (id cf) OptUndefined
               | NotOk _ => after = [Alert (MsgText "Failed to create folder")]
               | Threw m => after = [Alert (message_of m)]
               end
       | None =>
           submit_create srv st name
           = [SetDialogName []; SetDialogs (createFolder_onOpenChange st false)]
       end).
Proof.
  unfold submit_create, CreateFolderDialog.handleSubmit.
  rewrite truthy_trim.
  destruct (whitespace_only name); simpl; [by left|right].
  split; [reflexivity|].
  unfold handleCreateFolder.
  destruct (currentFolder st) as [cf|]; [|reflexivity].
  destruct (mutate srv (createFolder_request (trim name) (id cf)));
    eexists; split; reflexivity.
Qed.


End WiringFacts.

(** ** App: the list of datarooms *)

Section DataroomFacts.
Import Js Types Http App.

Lemma run_loadFolder_rooms (srv : Server) (st0 st : State) (folderId : Z)
    (options : LoadOptions) :
  datarooms (run st0 (loadFolder srv st folderId options)) = datarooms st0
  ∧ selectedDataroom (run st0 (loadFolder srv st folderId options))
    = selectedDataroom st0.
Proof.
  unfold loadFolder.
  destruct (contents srv (loadFolder_request st folderId options)); split; reflexivity.
Qed.

Lemma run_loadRoot_rooms (srv : Server) (st0 st : State) (dataroomId : option Z) :
  datarooms (run st0 (loadRoot srv st dataroomId)) = datarooms st0
  ∧ selectedDataroom (run st0 (loadRoot srv st dataroomId)) = selectedDataroom st0.
Proof.
  unfold loadRoot.
  destruct (root srv (loadRoot_request dataroomId)) as [m|c|r];
    [split; reflexivity..|].
  pose proof (run_loadFolder_rooms srv
                (apply_effect st0 (SetState {| loading := true; error := None |}))
                st (fs_id r) (OptObject (Some 1) (Some 1))) as [Hd Hs].
  split; [exact Hd|exact Hs].
Qed.

(** X14.  When the list of datarooms arrives it is stored as received.  If
    it is empty the selection and the folder are cleared and nothing more is
    requested.  Otherwise the selected dataroom is one of the list: the one
    with the preferred id when there is one, and the first room when no id
    is preferred, the id is 0, or no room has it; the root of the selected
    room is requested next. *)
Theorem load_datarooms_selects_a_room (srv : Server) (st : State)
    (preferredId : option Z) (rs : list FolderSummary) :
  rooms srv loadDatarooms_request = Ok rs →
  datarooms (run st (loadDatarooms srv st preferredId)) = rs
  ∧ match rs with
    | [] =>
        requests (loadDatarooms srv st preferredId) = [loadDatarooms_request]
        ∧ selectedDataroom (run st (loadDatarooms srv st preferredId)) = None
        ∧ currentFolder (run st (loadDatarooms srv st preferredId)) = None
        ∧ state (run st (loadDatarooms srv st preferredId))
          = {| loading := false; error := None |}
    | first :: _ =>
        ∃ room,
          room ∈ rs
          ∧ selectedDataroom (run st (loadDatarooms srv st preferredId)) = Some room
          ∧ requests (loadDatarooms srv st preferredId) !! 1%nat
            = Some (loadRoot_request (Some (fs_id room)))
          ∧ (∀ p, preferredId = Some p → p ≠ 0 →
                  (∃ x, x ∈ rs ∧ fs_id x = p) → fs_id room = p)
          ∧ (preferredId = None ∨ preferredId = Some 0
             ∨ (∀ x, x ∈ rs → Some (fs_id x) ≠ preferredId) → room = first)
    end.
Proof.
  intros Hrooms. unfold loadDatarooms. rewrite Hrooms.
  destruct rs as [|first rest]; [repeat split|].
  set (rs := first :: rest).
  set (room := match preferredId with
               | Some p => if p =? 0 then first
                           else default first (find (λ r, fs_id r =? p) rs)
               | None => first
               end).
  cbn [run foldl apply_effect].
  destruct (run_loadRoot_rooms srv
              (apply_effect (apply_effect st (SetDatarooms rs))
                 (SetSelectedDataroom (Some room)))
              st (Some (fs_id room))) as [Hd Hs].
  split; [exact Hd|].
  exists room. split; [|split; [exact Hs|split; [|split]]].
  - subst room. destruct preferredId as [p|]; [|by left].
    destruct (p =? 0); [by left|].
    destruct (find _ rs) as [x|] eqn:Hfind; [|by left].
    apply find_some in Hfind as [Hin _]. by apply list_elem_of_In.
  - reflexivity.
  - intros p -> Hp (x & Hx & Hid). subst room.
    destruct (Z.eqb_spec p 0); [done|].
    destruct (find _ rs) as [y|] eqn:Hfind.
    + apply find_some in Hfind as [_ Hy]. by apply Z.eqb_eq in Hy.
    + apply list_elem_of_In in Hx.
      pose proof (find_none _ _ Hfind x Hx) as Hno. simpl in Hno.
      apply Z.eqb_neq in Hno. done.
  - subst room. intros [->|[->|Hnone]]; [reflexivity..|].
    destruct preferredId as [p|]; [|reflexivity].
    destruct (p =? 0); [reflexivity|].
    destruct (find _ rs) as [y|] eqn:Hfind; [|reflexivity].
    apply find_some in Hfind as [Hin Hy]. apply Z.eqb_eq in Hy.
    apply list_elem_of_In in Hin. destruct (Hnone y Hin). by rewrite Hy.
Qed.

End DataroomFacts.

Section ExtraWitnesses.
Import Js Types Http App AppWiring Fixtures MoreFixtures.

Lemma search_outcome_decides_results_witness :
  SearchBar.requests (SearchBar.handleSearch (NotOk 500) (of_string "quarter"))
  = [SearchBar.search_request (of_string "quarter")]
  ∧ SearchBar.results
      (SearchBar.run searched_state
         (SearchBar.handleSearch (NotOk 500) (of_string "quarter")))
    = Some shown_results
  ∧ SearchBar.requests (SearchBar.handleSearch (Ok shown_results) [0xD800%N]) = [].
Proof.
  destruct (search_outcome_decides_results (NotOk 500) searched_state
              (of_string "quarter") eq_refl) as (_ & _ & Hsent & _).
  destruct (Hsent eq_refl) as [Hreq Hres].
  destruct (search_outcome_decides_results (Ok shown_results) searched_state
              [0xD800%N] eq_refl) as (_ & _ & _ & Hthrown).
  destruct (Hthrown eq_refl) as [Hnone _].
  split; [exact Hreq|]. split; [exact Hres|exact Hnone].
Defined.

Lemma searching_indicator_needs_earlier_results_witness :
  SearchBarView.dropdown
    (SearchBarView.pending
       {| SearchBar.query := []; SearchBar.results := None;
          SearchBar.isSearching := false |}
       (NotOk 500) (of_string "quarter"))
  = SearchBarView.Hidden
  ∧ SearchBarView.dropdown
      (SearchBarView.pending searched_state (NotOk 500) (of_string "quarter"))
    = SearchBarView.Searching.
Proof.
  split.
  - exact (proj2 (proj2 (proj2 (searching_indicator_needs_earlier_results
                                  (NotOk 500)
                                  {| SearchBar.query := []; SearchBar.results := None;
                                     SearchBar.isSearching := false |}
                                  (of_string "quarter") eq_refl eq_refl)))).
  - exact (proj2 (proj2 (proj2 (searching_indicator_needs_earlier_results
                                  (NotOk 500) searched_state (of_string "quarter")
                                  eq_refl eq_refl)))).
Defined.

Lemma navigation_carries_cursors_witness :
  requests (folder_card_onClick paging_server
              (run crowded_state (loadFolder paging_server crowded_state 2 OptUndefined))
              plans)
  = [ {| url := UrlFolderContents 5
                  {| p_folder_page := 3; p_folder_page_size := 50;
                     p_file_page := 2; p_file_page_size := 50 |};
         method := None; credentials := Some Include;
         content_type_json := false; body := None |} ].
Proof.
  exact (proj1 (navigation_carries_cursors paging_server crowded_state 2
                  OptUndefined docs_page_three plans eq_refl)).
Defined.

Lemma refused_mutation_changes_nothing_witness :
  run (deleting docs) (handleDeleteFolder refusing_server (deleting docs))
  = deleting docs
  ∧ (length (requests (handleDeleteFolder refusing_server (deleting docs))) ≤ 1)%nat.
Proof.
  assert (Hrefuse : ∀ (r : Request) (u : unit), mutate refusing_server r ≠ Ok u)
    by (intros r u; discriminate).
  destruct (refused_mutation_changes_nothing refusing_server (deleting docs)
              (of_string "Docs") true Hrefuse
              (handleDeleteFolder refusing_server (deleting docs)))
    as (Hrun & Hlen & _).
  - apply list_elem_of_In. simpl. tauto.
  - split; [exact Hrun|exact Hlen].
Defined.

Lemma accepted_mutation_reloads_folder_on_screen_witness :
  requests (handleCreateFolder forgetful_server crowded_state (of_string "Docs"))
  = [createFolder_request (of_string "Docs") 1;
     loadFolder_request crowded_state 1 OptUndefined].
Proof.
  exact (proj1 (accepted_mutation_reloads_folder_on_screen forgetful_server
                  crowded_state crowded_listing (of_string "Docs") eq_refl
                  (λ _, eq_refl))).
Defined.

Lemma load_datarooms_selects_a_room_witness :
  datarooms (run crowded_state (loadDatarooms paging_server crowded_state (Some 7)))
  = [acme; vault]
  ∧ ∃ room,
      selectedDataroom
        (run crowded_state (loadDatarooms paging_server crowded_state (Some 7)))
      = Some room
      ∧ fs_id room = 7.
Proof.
  destruct (load_datarooms_selects_a_room paging_server crowded_state (Some 7)
              [acme; vault] eq_refl)
    as (Hrooms & room & _ & Hsel & _ & Hpref & _).
  split; [exact Hrooms|].
  exists room. split; [exact Hsel|].
  apply (Hpref 7); [reflexivity|lia|].
  exists vault. split; [|reflexivity].
  apply list_elem_of_In. simpl. tauto.
Defined.

End ExtraWitnesses.

(** ** App: the size shown on a file card *)

Section FileCardFacts.
Import Js Types App MoreFixtures.

(** X15.  Provided the floored logarithm the engine computes is not negative
    for sizes from 1 on, the size text of a file card whose [size_bytes] is
    an integer that is not negative is "0 B" for 0 and otherwise ends in one
    of the five units: it never reads "undefined". *)
Theorem file_card_size_has_a_unit (floor_log_ratio : Q → Z)
    (render_value : Q → Z → string) (file : FileItem) :
  (∀ size, (1 <= size)%Q → 0 ≤ floor_log_ratio size) →
  0 ≤ fi_size_bytes file →
  (fi_size_bytes file = 0
   ∧ file_size_text floor_log_ratio render_value file = "0 B"%string)
  ∨ (0 < fi_size_bytes file
     ∧ ∃ u, u ∈ units
            ∧ unit_text (unit_index floor_log_ratio (inject_Z (fi_size_bytes file))) = u
            ∧ file_size_text floor_log_ratio render_value file
              = (render_value (inject_Z (fi_size_bytes file))
                   (unit_index floor_log_ratio (inject_Z (fi_size_bytes file)))
                 ++ " " ++ u)%string).
Proof.
  intros Hlog Hsize. unfold file_size_text.
  destruct (Z.eq_dec (fi_size_bytes file) 0) as [Hz|Hne].
  { left. split; [exact Hz|]. by rewrite Hz. }
  right. split; [lia|].
  assert (Hone : (1 <= inject_Z (fi_size_bytes file))%Q).
  { change 1%Q with (inject_Z 1). rewrite <- Zle_Qle. lia. }
  destruct (formatBytes_from_one_byte floor_log_ratio render_value _ Hone
              (Hlog _ Hone)) as (_ & u & Hidx & Hu & Htext).
  exists u. split; [exact Hu|]. split; [|exact Htext].
  unfold unit_text. by rewrite Hidx.
Qed.

Lemma file_card_size_has_a_unit_witness :
  file_size_text floor_log1024 (λ _ _, "2.0"%string) overview_pdf
  = "2.0 KB"%string.
Proof.
  destruct (file_card_size_has_a_unit floor_log1024 (λ _ _, "2.0"%string)
              overview_pdf floor_log1024_nonneg)
    as [[Hzero _]|(_ & u & _ & Hunit & Htext)].
  - simpl. lia.
  - discriminate Hzero.
  - rewrite Htext, <- Hunit. reflexivity.
Defined.

End FileCardFacts.
